(** * Vara CRM: rule engine, pipeline analytics, service shell, telemetry

    A shallow embedding of
      - [src/lib/services/intent.service.ts]        (IntentService)
      - [src/lib/services/relationship.service.ts]  (RelationshipService)
      - [src/lib/database/client.ts]                (setOrgContext, clearOrgContext)
      - [src/lib/observability/telemetry.ts]        (PerformanceMonitor)
      - [src/lib/validation/schemas.ts], [intent-schemas.ts]

    Conventions of the embedding.
      - A JavaScript [number] that carries a measure (value, probability,
        confidence, priority, averages, forecasts) is an IEEE-754 binary64
        value: Rocq's primitive [float], with the primitive comparisons
        and arithmetic.
      - A [Date] is its [getTime()] reading: milliseconds since the epoch,
        an integer ([Z]).  The day counts [Math.ceil(ms / 86400000)] are
        integers too: for two dates less than 2^53 ms apart (some 285,000
        years) the difference is exact and its binary64 quotient by
        86400000 never rounds onto or across an integer, so the ceiling
        of the exact quotient is what the code computes.
      - An array [length] is an integer.  The [limit] of a list request
        is a [number] that its schema bounds (1 to 100) but does not
        require to be whole: it is held as the rational it denotes
        ([Q]; every finite binary64 value is one), on which comparing
        with a length and truncating are exact, as they are on the
        binary64 value.
      - [Date.now()] / [new Date()] read one clock value [now] per call of
        a modelled function.
      - [uuidv4()] draws from an external source, passed as a supply
        [nat -> string]: the k-th draw of a call is [uuid k].
      - The database client is external: a record of its answers. *)

From Stdlib Require Import ZArith List String Bool Lia PeanoNat Permutation.
From Stdlib Require Import QArith Qround.
From Stdlib Require Import PrimFloat.
From Stdlib Require DecimalString.
Import ListNotations.

#[local] Set Warnings "-inexact-float".
#[local] Set Warnings "-register-all".
#[local] Open Scope string_scope.
#[local] Open Scope list_scope.
#[local] Open Scope Z_scope.

(* ================================================================== *)
(** * Numbers and time *)

Module Num.

(** JavaScript comparison operators on numbers (false on NaN). *)
Definition gt (a b : float) : bool := PrimFloat.ltb b a.
Definition lt (a b : float) : bool := PrimFloat.ltb a b.
Definition le (a b : float) : bool := PrimFloat.leb a b.
Definition ge (a b : float) : bool := PrimFloat.leb b a.
(** [a === b] and [a !== b] on numbers. *)
Definition eq (a b : float) : bool := PrimFloat.eqb a b.
Definition neq (a b : float) : bool := negb (PrimFloat.eqb a b).
Definition isNaN (a : float) : bool := negb (PrimFloat.eqb a a).

(** The number denoted by a positive integer, by binary expansion
    (exact below 2^53, which every array length and day count is). *)
Fixpoint of_pos (p : positive) : float :=
  match p with
  | xH => 1%float
  | xO q => PrimFloat.mul 2%float (of_pos q)
  | xI q => PrimFloat.add (PrimFloat.mul 2%float (of_pos q)) 1%float
  end.

Definition of_Z (z : Z) : float :=
  match z with
  | Z0 => 0%float
  | Zpos p => of_pos p
  | Zneg p => PrimFloat.opp (of_pos p)
  end.

Definition of_nat (n : nat) : float := of_Z (Z.of_nat n).

(** The number whose value is the rational [q]: the binary64 quotient
    of numerator by denominator (no rounding when [q] is the value of a
    binary64 number). *)
Definition of_Q (q : Q) : float := PrimFloat.div (of_Z (Qnum q)) (of_pos (Qden q)).

(** [n > x] for an array length [n] and a finite number [x]. *)
Definition length_gt (n : nat) (x : Q) : bool :=
  negb (Qle_bool (inject_Z (Z.of_nat n)) x).

(** [ToIntegerOrInfinity(x)] for a finite number [x]: truncation
    towards zero (what [slice] makes of a bound). *)
Definition to_integer (x : Q) : Z := if Qle_bool 0 x then Qfloor x else Qceiling x.

End Num.

Definition Timestamp := Z.

(** [1000 * 60 * 60 * 24] *)
Definition MS_PER_DAY : Z := 1000 * 60 * 60 * 24.

(** [Math.ceil(ms / (1000 * 60 * 60 * 24))] for an integer [ms]. *)
Definition ceil_days (ms : Z) : Z := - ((- ms) / MS_PER_DAY).

(** Template-literal rendering of an integer: [`${n}`]. *)
Definition show_int (z : Z) : string :=
  DecimalString.NilZero.string_of_int (Z.to_int z).

(* ================================================================== *)
(** * Data model (validation/intent-schemas.ts, validation/schemas.ts) *)

(** [IntentStageSchema] *)
Inductive IntentStage :=
| discovery | qualification | proposal | negotiation | closed_won | closed_lost.

(** [IntentPrioritySchema] *)
Inductive IntentPriority := prio_low | prio_medium | prio_high | prio_urgent.

(** [z.enum(['low', 'medium', 'high'])] *)
Inductive Level := low | medium | high.

(** [AIInsightSchema.type] *)
Inductive InsightType := behavioral | predictive | contextual | competitive.

(** [NextBestActionSchema.type] *)
Inductive ActionType := call | email | meeting | follow_up | proposal_action | demo.

(** [RelationshipTypeSchema] *)
Inductive RelationshipType := individual | company.

Definition IntentStage_eqb (a b : IntentStage) : bool :=
  match a, b with
  | discovery, discovery | qualification, qualification
  | proposal, proposal | negotiation, negotiation
  | closed_won, closed_won | closed_lost, closed_lost => true
  | _, _ => false
  end.

Definition ActionType_eqb (a b : ActionType) : bool :=
  match a, b with
  | call, call | email, email | meeting, meeting | follow_up, follow_up
  | proposal_action, proposal_action | demo, demo => true
  | _, _ => false
  end.

Definition stage_name (s : IntentStage) : string :=
  match s with
  | discovery => "discovery"
  | qualification => "qualification"
  | proposal => "proposal"
  | negotiation => "negotiation"
  | closed_won => "closed-won"
  | closed_lost => "closed-lost"
  end.

(** Values stored in the free-form [metadata] / [tags] records
    ([z.record(z.any())]). *)
Inductive MetaValue :=
| MNum (x : float)
| MInt (n : Z)
| MStr (s : string)
| MBool (b : bool)
| MStage (s : IntentStage).

Definition Metadata := list (string * MetaValue).

Fixpoint meta_get (k : string) (m : Metadata) : option MetaValue :=
  match m with
  | [] => None
  | (k', v) :: m' => if String.eqb k k' then Some v else meta_get k m'
  end.

(** The joined [relationships!inner(id, name, email, company,
    propensity_score)] object of an intent row. *)
Record RelationshipRef := {
  ref_id : string;
  ref_name : string;
  ref_email : option string;
  ref_company : option string;
  ref_propensity_score : float
}.

(** A row of table [intents] as the service reads it ([intentData: any]):
    [updated_at] and [expected_close_date] are held as the time value
    [new Date(...)] gives them; a null or absent close date is [None].
    [interactions] is the joined [interactions(count)], when selected. *)
Module Intent.
Record Row := {
  id : string;
  org_id : string;
  relationship_id : string;
  title : string;
  description : option string;
  value : float;
  currency : string;
  stage : IntentStage;
  priority : IntentPriority;
  expected_close_date : option Timestamp;
  probability : float;
  metadata : Metadata;
  created_at : string;
  updated_at : Timestamp;
  relationships : RelationshipRef;
  interactions : option Z
}.
End Intent.

(** [AIInsight] *)
Record AIInsight := {
  ins_id : string;
  ins_type : InsightType;
  ins_title : string;
  ins_description : string;
  ins_confidence : float;
  ins_reasoning : string;
  ins_impact : Level;
  ins_timestamp : Timestamp;
  ins_metadata : Metadata
}.

(** [NextBestAction] *)
Record NextBestAction := {
  act_id : string;
  act_type : ActionType;
  act_title : string;
  act_description : string;
  act_priority : float;
  act_reasoning : string;
  act_confidence : float;
  act_estimated_impact : Level;
  act_estimated_effort : Level;
  act_due_date : option Timestamp;
  act_metadata : Metadata
}.

(* ================================================================== *)
(** * Array.prototype helpers *)

Module JsArray.
Section Ops.
Context {A : Type}.

(** [arr.slice(0, n)] for an integer [n >= 0]. *)
Definition slice0 (n : Z) (arr : list A) : list A := firstn (Z.to_nat n) arr.

(** [arr.slice(-n)] for an integer [n > 0]. *)
Definition slice_last (n : nat) (arr : list A) : list A :=
  skipn (List.length arr - n) arr.

(** [arr[arr.length - 1]] ([None] for [undefined]). *)
Definition last_elem (arr : list A) : option A :=
  nth_error arr (List.length arr - 1).

(** [arr.some(p)] *)
Definition some (p : A -> bool) (arr : list A) : bool := existsb p arr.

(** [arr.reduce((sum, x) => sum + f(x), 0)] *)
Definition sum_by (f : A -> float) (arr : list A) : float :=
  fold_left (fun sum x => PrimFloat.add sum (f x)) arr 0%float.

(** [arr.sort(cmp)]: a stable sort driven by the sign of [cmp a b]
    (a NaN result counts as 0).  An element moves in front of the
    elements that follow it only while it does not compare greater. *)
Fixpoint insert (cmp : A -> A -> float) (x : A) (l : list A) : list A :=
  match l with
  | [] => [x]
  | y :: l' =>
      if Num.gt (cmp x y) 0%float then y :: insert cmp x l' else x :: y :: l'
  end.

Definition sort (cmp : A -> A -> float) (arr : list A) : list A :=
  fold_right (insert cmp) [] arr.

End Ops.
End JsArray.

(* ================================================================== *)
(** * Math helpers *)

Module JsMath.

(** [Math.ceil(x)] for a number [0 <= x <= bound]: the least integer
    [n <= bound] with [x <= n] (integers of that size are exact
    binary64 values).  [None] when there is none: [x] is NaN or above
    [bound]. *)
Fixpoint ceil_from (fuel n : nat) (x : float) : option nat :=
  if Num.le x (Num.of_nat n) then Some n
  else match fuel with
       | O => None
       | S fuel' => ceil_from fuel' (S n) x
       end.

Definition ceil_upto (bound : nat) (x : float) : option nat := ceil_from bound 0 x.

Definition is_neg_zero (x : float) : bool :=
  match PrimFloat.classify x with FloatClass.NZero => true | _ => false end.

Definition is_pos_zero (x : float) : bool :=
  match PrimFloat.classify x with FloatClass.PZero => true | _ => false end.

(** [Math.min(...values)]: NaN if any value is NaN, [+Infinity] for no
    value, and [-0] below [+0]. *)
Fixpoint min_from (lowest : float) (values : list float) : float :=
  match values with
  | [] => lowest
  | x :: rest =>
      if Num.isNaN x then PrimFloat.nan
      else if is_neg_zero x && is_pos_zero lowest then min_from x rest
      else if Num.lt x lowest then min_from x rest
      else min_from lowest rest
  end.

Definition min (values : list float) : float := min_from PrimFloat.infinity values.

(** [Math.max(...values)] *)
Fixpoint max_from (highest : float) (values : list float) : float :=
  match values with
  | [] => highest
  | x :: rest =>
      if Num.isNaN x then PrimFloat.nan
      else if is_pos_zero x && is_neg_zero highest then max_from x rest
      else if Num.gt x highest then max_from x rest
      else max_from highest rest
  end.

Definition max (values : list float) : float := max_from PrimFloat.neg_infinity values.

End JsMath.

(* ================================================================== *)
(** * Insight rule engine (IntentService, private methods) *)

Module RuleEngine.
Section Rules.

(** [Number.prototype.toLocaleString], locale dependent. *)
Variable toLocaleString : float -> string.
(** The [uuidv4()] supply of the call. *)
Variable uuid : nat -> string.
(** The clock reading of the call. *)
Variable now : Timestamp.

(** [calculateDaysInStage(updatedAt, stage)] *)
Definition calculateDaysInStage (updatedAt : Timestamp) (stage : IntentStage) : Z :=
  ceil_days (now - updatedAt).

(** The three insight records, as the literals passed to
    [AIInsightSchema.parse] (which accepts them unchanged: every
    constrained field is a constant within its bounds). *)
Definition high_conversion_insight (k : nat) (i : Intent.Row) : AIInsight :=
  {| ins_id := uuid k;
     ins_type := behavioral;
     ins_title := "High Conversion Probability Detected";
     ins_description := "This intent shows strong buying signals with 80%+ probability while still in qualification stage.";
     ins_confidence := 0.92;
     ins_reasoning := "High probability score combined with early stage indicates accelerated buying process";
     ins_impact := high;
     ins_timestamp := now;
     ins_metadata := [("probability", MNum (Intent.probability i)); ("stage", MStage (Intent.stage i))] |}.

Definition closing_soon_insight (k : nat) (i : Intent.Row) (daysToClose : Z) : AIInsight :=
  {| ins_id := uuid k;
     ins_type := predictive;
     ins_title := "High-Value Deal Closing Soon";
     ins_description := ("$" ++ toLocaleString (Intent.value i) ++ " deal expected to close within "
                          ++ show_int daysToClose ++ " days.")%string;
     ins_confidence := 0.85;
     ins_reasoning := "Large deal value with near-term close date requires focused attention";
     ins_impact := high;
     ins_timestamp := now;
     ins_metadata := [("value", MNum (Intent.value i)); ("days_to_close", MInt daysToClose)] |}.

Definition extended_stage_insight (k : nat) (i : Intent.Row) (daysInStage : Z) : AIInsight :=
  {| ins_id := uuid k;
     ins_type := contextual;
     ins_title := "Extended Stage Duration";
     ins_description := ("Intent has been in " ++ stage_name (Intent.stage i) ++ " stage for "
                          ++ show_int daysInStage ++ " days, longer than typical.")%string;
     ins_confidence := 0.78;
     ins_reasoning := "Extended time in stage may indicate stalled progress or need for intervention";
     ins_impact := medium;
     ins_timestamp := now;
     ins_metadata := [("days_in_stage", MInt daysInStage); ("stage", MStage (Intent.stage i))] |}.

(** [generateAIInsights(intentData)].  Each step is one [if] of the
    source, pushing onto the [insights] array built so far. *)
Definition behavioral_step (i : Intent.Row) (insights : list AIInsight) : list AIInsight :=
  if Num.gt (Intent.probability i) 0.8 && IntentStage_eqb (Intent.stage i) qualification
  then insights ++ [high_conversion_insight (List.length insights) i]
  else insights.

Definition predictive_step (i : Intent.Row) (insights : list AIInsight) : list AIInsight :=
  if Num.gt (Intent.value i) 50000 then
    match Intent.expected_close_date i with
    | Some closeDate =>
        let daysToClose := ceil_days (closeDate - now) in
        if daysToClose <? 30
        then insights ++ [closing_soon_insight (List.length insights) i daysToClose]
        else insights
    | None => insights
    end
  else insights.

Definition contextual_step (i : Intent.Row) (insights : list AIInsight) : list AIInsight :=
  let daysInStage := calculateDaysInStage (Intent.updated_at i) (Intent.stage i) in
  if (30 <? daysInStage) && negb (IntentStage_eqb (Intent.stage i) discovery)
  then insights ++ [extended_stage_insight (List.length insights) i daysInStage]
  else insights.

Definition generateAIInsights (i : Intent.Row) : list AIInsight :=
  contextual_step i (predictive_step i (behavioral_step i [])).

(** The action records, as the literals passed to
    [NextBestActionSchema.parse]. *)
Definition discovery_call (k : nat) (i : Intent.Row) : NextBestAction :=
  {| act_id := uuid k;
     act_type := call;
     act_title := "Discovery Call";
     act_description := "Schedule a discovery call to better understand needs and increase engagement";
     act_priority := 2;
     act_reasoning := "Low probability indicates need for deeper relationship building";
     act_confidence := 0.85;
     act_estimated_impact := high;
     act_estimated_effort := medium;
     act_due_date := None;
     act_metadata := [("current_probability", MNum (Intent.probability i))] |}.

Definition send_proposal (k : nat) (i : Intent.Row) : NextBestAction :=
  {| act_id := uuid k;
     act_type := proposal_action;
     act_title := "Send Proposal";
     act_description := "High qualification score indicates readiness for formal proposal";
     act_priority := 1;
     act_reasoning := "Strong qualification signals suggest buyer is ready to evaluate solutions";
     act_confidence := 0.91;
     act_estimated_impact := high;
     act_estimated_effort := high;
     act_due_date := Some (now + 3 * 24 * 60 * 60 * 1000);
     act_metadata := [("probability", MNum (Intent.probability i))] |}.

Definition proposal_follow_up (k : nat) (i : Intent.Row) (daysInStage : Z) : NextBestAction :=
  {| act_id := uuid k;
     act_type := follow_up;
     act_title := "Proposal Follow-up";
     act_description := "Follow up on proposal submitted 2+ weeks ago";
     act_priority := 1;
     act_reasoning := "Extended time in proposal stage requires proactive follow-up";
     act_confidence := 0.88;
     act_estimated_impact := medium;
     act_estimated_effort := low;
     act_due_date := None;
     act_metadata := [("days_in_stage", MInt daysInStage)] |}.

Definition negotiation_meeting (k : nat) (i : Intent.Row) : NextBestAction :=
  {| act_id := uuid k;
     act_type := meeting;
     act_title := "Negotiation Meeting";
     act_description := "Schedule meeting to address final terms and close the deal";
     act_priority := 1;
     act_reasoning := "Negotiation stage requires direct engagement to resolve final objections";
     act_confidence := 0.82;
     act_estimated_impact := high;
     act_estimated_effort := medium;
     act_due_date := None;
     act_metadata := [("stage", MStage (Intent.stage i))] |}.

Definition executive_meeting (k : nat) (i : Intent.Row) : NextBestAction :=
  {| act_id := uuid k;
     act_type := meeting;
     act_title := "Executive Meeting";
     act_description := "High-value deal warrants executive-level engagement";
     act_priority := 1;
     act_reasoning := "Large deal value justifies senior stakeholder involvement";
     act_confidence := 0.79;
     act_estimated_impact := high;
     act_estimated_effort := high;
     act_due_date := None;
     act_metadata := [("deal_value", MNum (Intent.value i))] |}.

(** The [switch (intentData.stage)] block: the stage-keyed rules. *)
Definition stage_actions (i : Intent.Row) : list NextBestAction :=
  match Intent.stage i with
  | discovery =>
      if Num.lt (Intent.probability i) 0.3 then [discovery_call 0 i] else []
  | qualification =>
      if Num.gt (Intent.probability i) 0.7 then [send_proposal 0 i] else []
  | proposal =>
      let daysInStage := calculateDaysInStage (Intent.updated_at i) (Intent.stage i) in
      if 14 <? daysInStage then [proposal_follow_up 0 i daysInStage] else []
  | negotiation => [negotiation_meeting 0 i]
  | closed_won | closed_lost => []
  end.

(** The value-based [if] that follows the switch. *)
Definition value_actions (i : Intent.Row) (actions : list NextBestAction)
  : list NextBestAction :=
  if Num.gt (Intent.value i) 100000
     && negb (JsArray.some (fun a => ActionType_eqb (act_type a) meeting) actions)
  then actions ++ [executive_meeting (List.length actions) i]
  else actions.

(** The comparator of the final [actions.sort(...)]. *)
Definition compare_actions (a b : NextBestAction) : float :=
  if Num.neq (act_priority a) (act_priority b)
  then PrimFloat.sub (act_priority a) (act_priority b)
  else PrimFloat.sub (act_confidence b) (act_confidence a).

(** [generateNextBestActions(intentData)] *)
Definition generateNextBestActions (i : Intent.Row) : list NextBestAction :=
  JsArray.sort compare_actions (value_actions i (stage_actions i)).

End Rules.
End RuleEngine.

(* ================================================================== *)
(** * Timing recorder (observability/telemetry.ts, PerformanceMonitor) *)

Module PerformanceMonitor.

(** An element of the static [measurements] array. *)
Record Measurement := {
  operation : string;
  duration : float;
  timestamp : Timestamp;
  tags : Metadata
}.

(** The retention window of the buffer. *)
Definition RETENTION : nat := 1000.

(** [PerformanceMonitor.record(operation, duration, tags)], called
    when the clock reads [now], on the buffer [measurements]. *)
Definition record (measurements : list Measurement)
           (operation : string) (duration : float) (now : Timestamp)
           (tags : Metadata) : list Measurement :=
  let pushed := measurements ++
    [ {| operation := operation; duration := duration;
         timestamp := now; tags := tags |} ] in
  if (RETENTION <? List.length pushed)%nat
  then JsArray.slice_last RETENTION pushed
  else pushed.

(** The buffer after a sequence of calls, oldest first, each given by
    the sample it pushes. *)
Definition record_sample (buf : list Measurement) (m : Measurement) :=
  record buf (operation m) (duration m) (timestamp m) (tags m).

Definition record_all (samples : list Measurement) : list Measurement :=
  fold_left record_sample samples [].

(** What an array read or a [number | null] result can be. *)
Inductive Reading :=
| Null
| Undefined
| Number (x : float).

(** [m.operation === operation && m.timestamp > cutoff] *)
Definition in_window (op : string) (cutoff : Timestamp) (m : Measurement) : bool :=
  String.eqb (operation m) op && (cutoff <? timestamp m).

(** [measurements.filter(...).map(m => m.duration)] with
    [cutoff = Date.now() - timeWindowMs]. *)
Definition window_durations (measurements : list Measurement) (op : string)
           (now timeWindowMs : Z) : list float :=
  map duration (filter (in_window op (now - timeWindowMs)) measurements).

(** The comparator [(a, b) => a - b]. *)
Definition ascending (a b : float) : float := PrimFloat.sub a b.

(** [sorted[Math.ceil(sorted.length * 0.95) - 1]] *)
Definition at_p95 (sorted : list float) : Reading :=
  let n := List.length sorted in
  match JsMath.ceil_upto n (PrimFloat.mul (Num.of_nat n) 0.95) with
  | Some (S k) =>
      match nth_error sorted k with
      | Some x => Number x
      | None => Undefined
      end
  | _ => Undefined
  end.

(** [PerformanceMonitor.getP95(operation, timeWindowMs)] when the clock
    reads [now]. *)
Definition getP95 (measurements : list Measurement) (op : string)
           (now timeWindowMs : Z) : Reading :=
  let filtered :=
    JsArray.sort ascending (window_durations measurements op now timeWindowMs) in
  match filtered with
  | [] => Null
  | _ => at_p95 filtered
  end.

(** The result of [getStats]. *)
Record Stats := {
  count : nat;
  min : float;
  max : float;
  avg : float;
  p95 : float
}.

(** [x || 0] on a reading. *)
Definition or_zero (r : Reading) : float :=
  match r with
  | Number x => if Num.eq x 0 || Num.isNaN x then 0%float else x
  | _ => 0%float
  end.

(** [PerformanceMonitor.getStats(operation, timeWindowMs)] *)
Definition getStats (measurements : list Measurement) (op : string)
           (now timeWindowMs : Z) : Stats :=
  let filtered := window_durations measurements op now timeWindowMs in
  match filtered with
  | [] => {| count := 0; min := 0; max := 0; avg := 0; p95 := 0 |}
  | _ =>
      let sorted := JsArray.sort ascending filtered in
      let sum := fold_left PrimFloat.add filtered 0%float in
      {| count := List.length filtered;
         min := JsMath.min filtered;
         max := JsMath.max filtered;
         avg := PrimFloat.div sum (Num.of_nat (List.length filtered));
         p95 := or_zero (at_p95 sorted) |}
  end.

End PerformanceMonitor.

(* ================================================================== *)
(** * Plain objects *)

(** A JavaScript object used as a record of values: its own string
    keys in insertion order (keys that are array indices, which
    JavaScript lists first, do not occur in the objects modelled). *)
Module Obj.
Section Objects.
Context {V : Type}.

(** [o[k]] ([None] for [undefined], a missing key) *)
Fixpoint get (k : string) (o : list (string * V)) : option V :=
  match o with
  | [] => None
  | (k', v) :: o' => if String.eqb k k' then Some v else get k o'
  end.

(** [o[k] = v]: an existing key keeps its place, a new one goes last. *)
Fixpoint set (k : string) (v : V) (o : list (string * V)) : list (string * V) :=
  match o with
  | [] => [(k, v)]
  | (k', v') :: o' =>
      if String.eqb k k' then (k, v) :: o' else (k', v') :: set k v o'
  end.

(** [Object.assign(target, source)] *)
Definition assign (target source : list (string * V)) : list (string * V) :=
  fold_left (fun o kv => set (fst kv) (snd kv) o) source target.

(** [{ ...o }] *)
Definition spread (o : list (string * V)) : list (string * V) := assign [] o.

(** The value an object literal or a spread gives key [k] when the
    entries of [o] are written in order: the last one wins. *)
Definition last_of (k : string) (o : list (string * V)) : option V := get k (rev o).

End Objects.
End Obj.

(** The values a log context can hold ([any]). *)
Inductive Json :=
| JUndefined
| JNull
| JBool (b : bool)
| JNum (x : float)
| JStr (s : string)
| JArr (items : list Json)
| JObj (fields : list (string * Json)).

(** [if (v)] *)
Definition Json_truthy (v : Json) : bool :=
  match v with
  | JUndefined | JNull => false
  | JBool b => b
  | JNum x => negb (Num.eq x 0 || Num.isNaN x)
  | JStr s => negb (String.eqb s "")
  | JArr _ | JObj _ => true
  end.

(* ================================================================== *)
(** * Spans and structured logging (observability/telemetry.ts) *)

Module Telemetry.

Inductive Level := debug | info | warn | error.

Definition level_name (l : Level) : string :=
  match l with
  | debug => "debug" | info => "info" | warn => "warn" | error => "error"
  end.

(** An element of [SpanContext.logs]. *)
Record SpanLog := {
  log_timestamp : float;
  log_level : Level;
  log_message : string;
  log_fields : option (list (string * Json))
}.

(** [string | number | boolean]: what a span tag holds. *)
Inductive TagValue :=
| TagStr (s : string)
| TagNum (x : float)
| TagBool (b : bool).

(** [SpanContext] *)
Record SpanContext := {
  traceId : string;
  spanId : string;
  parentSpanId : option string;
  operation : string;
  startTime : float;
  tags : list (string * TagValue);
  logs : list SpanLog
}.

(** [Span]: its private [context] and [finished] fields. *)
Record Span := {
  context : SpanContext;
  finished : bool
}.

(** [new Span(operation, parentSpan)] when [performance.now()] reads
    [now]; [uuid] is the [uuidv4()] supply of the call.  A parent trace
    id that is the empty string is falsy and replaced. *)
Definition new_Span (uuid : nat -> string) (now : float) (op : string)
           (parentSpan : option Span) : Span :=
  let inherited :=
    match parentSpan with
    | Some parent =>
        if String.eqb (traceId (context parent)) "" then None
        else Some (traceId (context parent))
    | None => None
    end in
  {| context :=
       {| traceId := match inherited with Some t => t | None => uuid 0%nat end;
          spanId := match inherited with Some _ => uuid 0%nat | None => uuid 1%nat end;
          parentSpanId := option_map (fun parent => spanId (context parent)) parentSpan;
          operation := op;
          startTime := now;
          tags := [];
          logs := [] |};
     finished := false |}.

(** [Tracer.startSpan(operation, parentSpan)] *)
Definition startSpan := new_Span.

Definition with_tags (s : Span) (t : list (string * TagValue)) : Span :=
  {| context :=
       {| traceId := traceId (context s);
          spanId := spanId (context s);
          parentSpanId := parentSpanId (context s);
          operation := operation (context s);
          startTime := startTime (context s);
          tags := t;
          logs := logs (context s) |};
     finished := finished s |}.

(** [tags[key] = value], an assignment to the plain object [tags].
    The key ["__proto__"] is no own key of a plain object: the write
    goes to the accessor inherited from [Object.prototype], which
    ignores a value that is not an object, and nothing is stored.  Any
    other key becomes or stays an own key. *)
Definition assign_tag (key : string) (value : TagValue) (t : list (string * TagValue))
  : list (string * TagValue) :=
  if String.eqb key "__proto__" then t else Obj.set key value t.

(** [span.setTag(key, value)] *)
Definition setTag (key : string) (value : TagValue) (s : Span) : Span :=
  with_tags s (assign_tag key value (tags (context s))).

(** [span.setTags(tags)]: [Object.assign(this.context.tags, tags)]
    assigns the own entries of its argument in order, each one as
    [setTag] does. *)
Definition setTags (t : list (string * TagValue)) (s : Span) : Span :=
  with_tags s (fold_left (fun o kv => assign_tag (fst kv) (snd kv) o) t (tags (context s))).

(** [span.log(level, message, fields)] when [performance.now()] reads
    [now]. *)
Definition log (now : float) (level : Level) (message : string)
           (fields : option (list (string * Json))) (s : Span) : Span :=
  {| context :=
       {| traceId := traceId (context s);
          spanId := spanId (context s);
          parentSpanId := parentSpanId (context s);
          operation := operation (context s);
          startTime := startTime (context s);
          tags := tags (context s);
          logs := logs (context s) ++
                  [ {| log_timestamp := now; log_level := level;
                       log_message := message; log_fields := fields |} ] |};
     finished := finished s |}.

(** [span.finish()] when [performance.now()] reads [now]: the duration
    returned and the span afterwards. *)
Definition finish (now : float) (s : Span) : float * Span :=
  if finished s then (0%float, s)
  else (PrimFloat.sub now (startTime (context s)),
        {| context := context s; finished := true |}).

(** [span.getContext()] *)
Definition getContext (s : Span) : SpanContext := context s.

(** [piiFields] of [Logger.maskPII]. *)
Definition piiFields : list string :=
  ["email"; "phone"; "ssn"; "credit_card"; "password"].

Definition MASKED : Json := JStr "***MASKED***".

(** One turn of the loop of [maskPII]. *)
Definition mask_field (masked : list (string * Json)) (field : string)
  : list (string * Json) :=
  match Obj.get field masked with
  | Some v => if Json_truthy v then Obj.set field MASKED masked else masked
  | None => masked
  end.

(** [Logger.maskPII(obj)] *)
Definition maskPII (obj : list (string * Json)) : list (string * Json) :=
  fold_left mask_field piiFields (Obj.spread obj).

(** The [logEntry] object literal of [Logger.log]:
    [{ timestamp, level, message, ...this.context, ...extra }]. *)
Definition logEntry (iso_now : string) (ctx : list (string * Json)) (level : Level)
           (message : string) (extra : list (string * Json)) : list (string * Json) :=
  Obj.assign
    (Obj.assign
       [("timestamp", JStr iso_now); ("level", JStr (level_name level));
        ("message", JStr message)]
       ctx)
    extra.

(** [Logger.log(level, message, extra)]: the object handed to
    [JSON.stringify] and written to the console, for a logger with
    context [ctx], when [new Date().toISOString()] is [iso_now]. *)
Definition Logger_log (iso_now : string) (ctx : list (string * Json)) (level : Level)
           (message : string) (extra : list (string * Json)) : list (string * Json) :=
  maskPII (logEntry iso_now ctx level message extra).

(** [logger.child(additionalContext)]: the context of the new logger. *)
Definition child (ctx additionalContext : list (string * Json)) : list (string * Json) :=
  Obj.assign (Obj.spread ctx) additionalContext.

End Telemetry.

(* ================================================================== *)
(** * Pipeline analytics aggregation (IntentService, private methods) *)

Module Analytics.

(** A row of the pipeline fetch
    [select(stage, value, probability, created_at, updated_at)];
    the aggregators read [expected_close_date] from the same objects
    ([intents: any[]]), absent unless the fetch supplies it. *)
Record StageRow := {
  stage : IntentStage;
  value : float;
  probability : float;
  created_at : string;
  updated_at : Timestamp;
  expected_close_date : option Timestamp
}.

(** [PipelineStageMetricsSchema] *)
Record StageMetrics := {
  sm_stage : IntentStage;
  count : nat;
  total_value : float;
  avg_value : float;
  avg_probability : float;
  avg_days_in_stage : float
}.

Record VelocityMetrics := {
  avg_days_to_close : float;
  avg_days_discovery_to_qualification : float;
  avg_days_qualification_to_proposal : float;
  avg_days_proposal_to_negotiation : float;
  avg_days_negotiation_to_close : float
}.

Record Forecasting := {
  next_30_days : float;
  next_60_days : float;
  next_90_days : float;
  confidence : float
}.

(** [PipelineAnalyticsSchema] *)
Record PipelineAnalytics := {
  total_intents : nat;
  total_pipeline_value : float;
  weighted_pipeline_value : float;
  avg_deal_size : float;
  overall_conversion_rate : float;
  stage_metrics : list StageMetrics;
  velocity_metrics : VelocityMetrics;
  forecasting : Forecasting
}.

Definition stages : list IntentStage :=
  [discovery; qualification; proposal; negotiation; closed_won].

Section Aggregators.
Variable now : Timestamp.

(** [calculateStageMetrics(intents)] *)
Definition calculateStageMetrics (intents : list StageRow) : list StageMetrics :=
  map (fun st =>
         let stageIntents := filter (fun i => IntentStage_eqb (stage i) st) intents in
         let count := List.length stageIntents in
         let totalValue := JsArray.sum_by value stageIntents in
         let avgValue :=
           if (0 <? count)%nat then PrimFloat.div totalValue (Num.of_nat count)
           else 0%float in
         let avgProbability :=
           if (0 <? count)%nat
           then PrimFloat.div (JsArray.sum_by probability stageIntents) (Num.of_nat count)
           else 0%float in
         let avgDaysInStage :=
           if (0 <? count)%nat
           then PrimFloat.div
                  (JsArray.sum_by
                     (fun i => Num.of_Z
                        (RuleEngine.calculateDaysInStage now (updated_at i) (stage i)))
                     stageIntents)
                  (Num.of_nat count)
           else 0%float in
         {| sm_stage := st;
            count := count;
            total_value := totalValue;
            avg_value := avgValue;
            avg_probability := avgProbability;
            avg_days_in_stage := avgDaysInStage |})
      stages.

(** [calculateVelocityMetrics()] *)
Definition calculateVelocityMetrics : VelocityMetrics :=
  {| avg_days_to_close := 45;
     avg_days_discovery_to_qualification := 7;
     avg_days_qualification_to_proposal := 14;
     avg_days_proposal_to_negotiation := 10;
     avg_days_negotiation_to_close := 14 |}.

(** The filter predicate of one horizon:
    [i.expected_close_date && new Date(i.expected_close_date) <= next]
    with [next = now + days * 24 * 60 * 60 * 1000]. *)
Definition closes_by (days : Z) (i : StageRow) : bool :=
  match expected_close_date i with
  | Some closeDate => closeDate <=? now + days * 24 * 60 * 60 * 1000
  | None => false
  end.

Definition forecast (days : Z) (intents : list StageRow) : float :=
  JsArray.sum_by (fun i => PrimFloat.mul (value i) (probability i))
                 (filter (closes_by days) intents).

(** [generateForecasting(intents)] *)
Definition generateForecasting (intents : list StageRow) : Forecasting :=
  {| next_30_days := forecast 30 intents;
     next_60_days := forecast 60 intents;
     next_90_days := forecast 90 intents;
     confidence := 0.82 |}.

(** The aggregation block of [getPipelineAnalytics] over the two
    fetched row sets: the object handed to
    [PipelineAnalyticsSchema.parse]. *)
Definition aggregate (stageData : list StageRow) (closedData : list IntentStage)
  : PipelineAnalytics :=
  let stageMetrics := calculateStageMetrics stageData in
  let velocityMetrics := calculateVelocityMetrics in
  let forecasting := generateForecasting stageData in
  let totalIntents := List.length stageData in
  let totalPipelineValue := JsArray.sum_by value stageData in
  let weightedPipelineValue :=
    JsArray.sum_by (fun i => PrimFloat.mul (value i) (probability i)) stageData in
  let avgDealSize :=
    if (0 <? totalIntents)%nat
    then PrimFloat.div totalPipelineValue (Num.of_nat totalIntents)
    else 0%float in
  let totalClosed := List.length closedData in
  let totalWon :=
    List.length (filter (fun d => IntentStage_eqb d closed_won) closedData) in
  let overallConversionRate :=
    if (0 <? totalClosed)%nat
    then PrimFloat.div (Num.of_nat totalWon) (Num.of_nat totalClosed)
    else 0%float in
  {| total_intents := totalIntents;
     total_pipeline_value := totalPipelineValue;
     weighted_pipeline_value := weightedPipelineValue;
     avg_deal_size := avgDealSize;
     overall_conversion_rate := overallConversionRate;
     stage_metrics := stageMetrics;
     velocity_metrics := velocityMetrics;
     forecasting := forecasting |}.

End Aggregators.

(** [z.number()] rejects NaN and nothing else among numbers. *)
Definition number_ok (x : float) : bool := negb (Num.isNaN x).

Definition stage_metrics_ok (m : StageMetrics) : bool :=
  number_ok (total_value m) && number_ok (avg_value m)
  && number_ok (avg_probability m) && number_ok (avg_days_in_stage m).

(** [PipelineAnalyticsSchema.parse]: [true] when the object is
    accepted (and returned unchanged), [false] when it throws. *)
Definition PipelineAnalyticsSchema_ok (a : PipelineAnalytics) : bool :=
  number_ok (total_pipeline_value a)
  && number_ok (weighted_pipeline_value a)
  && number_ok (avg_deal_size a)
  && number_ok (overall_conversion_rate a)
  && forallb stage_metrics_ok (stage_metrics a)
  && number_ok (next_30_days (forecasting a))
  && number_ok (next_60_days (forecasting a))
  && number_ok (next_90_days (forecasting a))
  && number_ok (confidence (forecasting a)).

End Analytics.

(* ================================================================== *)
(** * Request/response service shell *)

(** A row of table [relationships] with the joined
    [interactions(count)] and [signals(count)]. *)
Module Relationship.
Record Row := {
  id : string;
  org_id : string;
  type : RelationshipType;
  name : string;
  email : option string;
  phone : option string;
  company : option string;
  title : option string;
  avatar_url : option string;
  tags : list string;
  metadata : Metadata;
  propensity_score : float;
  last_interaction_at : option string;
  created_at : string;
  updated_at : string;
  interactions : option Z;
  signals : option Z
}.
End Relationship.

(** [IntentResponse] *)
Module IntentResponse.
Record t := {
  id : string;
  org_id : string;
  relationship_id : string;
  title : string;
  description : option string;
  value : float;
  currency : string;
  stage : IntentStage;
  priority : IntentPriority;
  expected_close_date : option Timestamp;
  probability : float;
  ai_insights : list AIInsight;
  next_best_actions : list NextBestAction;
  metadata : Metadata;
  created_at : string;
  updated_at : Timestamp;
  relationship : option RelationshipRef;
  days_in_stage : option Z;
  interaction_count : option Z
}.
End IntentResponse.

Module Service.

(** [RequestContext] (database/client.ts) *)
Record RequestContext := {
  orgId : string;
  userId : option string;
  requestId : string
}.

(** What a service method can throw. *)
Inductive Exn :=
| ZodError (issues : string)      (* a failed [Schema.parse] *)
| Error (message : string)        (* [new Error(message)] *)
| TypeError (message : string).   (* a property read on [null] *)

Definition exn_message (e : Exn) : string :=
  match e with ZodError m | Error m | TypeError m => m end.

Inductive Outcome (A : Type) :=
| Return (a : A)
| Throw (e : Exn).
Arguments Return {A} a.
Arguments Throw {A} e.

Inductive LogLevel := log_debug | log_info | log_warn | log_error.

(** The observable steps of a service call, in program order. *)
Inductive Event :=
| EvLog (level : LogLevel) (message : string)  (* [this.logger.<level>(message, ..)] *)
| EvSetOrgContext (orgId : string)             (* [setOrgContext(orgId)] *)
| EvQuery (table : string)                     (* an awaited [supabase.from(table)] query *)
| EvRecord (operation : string)                (* [PerformanceMonitor.record(operation, ..)] *)
| EvClearOrgContext.                           (* [clearOrgContext()] *)

(** The state shared between calls: what the variable
    [app.current_org_id] reads once a call of the database client has
    returned, and the static measurements buffer. *)
Record World := {
  current_org_id : string;
  measurements : list PerformanceMonitor.Measurement
}.

(** [{ message, code }] of a failed database call. *)
Record PostgrestError := {
  pg_message : string;
  pg_code : string
}.

(** [{ data, error, count }] *)
Record Response (A : Type) := {
  data : option A;
  error : option PostgrestError;
  count : option Z
}.
Arguments data {A} r.
Arguments error {A} r.
Arguments count {A} r.

Inductive SortBy :=
| by_created_at | by_updated_at | by_value | by_probability | by_expected_close_date.
Inductive SortOrder := asc | desc.

(** The query the builder of [listIntents] has accumulated when it is
    awaited. *)
Record IntentListQuery := {
  q_gt_id : option string;
  q_textSearch : option string;
  q_eq_stage : option IntentStage;
  q_eq_priority : option IntentPriority;
  q_eq_relationship_id : option string;
  q_gte_value : option float;
  q_lte_value : option float;
  q_gte_probability : option float;
  q_lte_expected_close_date : option string;
  q_gte_expected_close_date : option string;
  q_order : SortBy;
  q_ascending : bool;
  q_limit : float
}.

(** The query the builder of [listRelationships] has accumulated
    (ordered by [updated_at], descending). *)
Record RelationshipListQuery := {
  rq_gt_id : option string;
  rq_textSearch : option string;
  rq_eq_type : option RelationshipType;
  rq_overlaps_tags : option (list string);
  rq_gte_propensity_score : option float;
  rq_limit : float
}.

(** The database client: what it answers to each call, given the
    steps the call has made so far. *)
Record Supabase := {
  rpc_set_config : list Event -> string -> option PostgrestError;
  intents_single : list Event -> bool -> string -> Response Intent.Row;
  intents_list : list Event -> IntentListQuery -> Response (list Intent.Row);
  intents_not_closed_lost : list Event -> Response (list Analytics.StageRow);
  intents_closed : list Event -> Response (list IntentStage);
  relationships_single : list Event -> string -> Response Relationship.Row;
  relationships_list :
    list Event -> RelationshipListQuery -> Response (list Relationship.Row)
}.

(** The rest of the host: clock, span timer, identifier source,
    number formatting, and zod's string formats. *)
Record Runtime := {
  now : Timestamp;
  span_duration : float;
  uuidv4 : nat -> nat -> string;
  toLocaleString : float -> string;
  is_uuid : string -> bool;
  is_date : string -> bool;
  zod_issues : string
}.

(** ** The effect monad: past steps in, state through, new steps out *)

Definition M (A : Type) : Type :=
  list Event -> World -> Outcome A * World * list Event.

Definition ret {A} (a : A) : M A := fun _ w => (Return a, w, []).

Definition throw {A} (e : Exn) : M A := fun _ w => (Throw e, w, []).

Definition bind {A B} (m : M A) (k : A -> M B) : M B :=
  fun past w =>
    match m past w with
    | (Return a, w1, evs1) =>
        match k a (past ++ evs1) w1 with
        | (r, w2, evs2) => (r, w2, evs1 ++ evs2)
        end
    | (Throw e, w1, evs1) => (Throw e, w1, evs1)
    end.

Definition emit (e : Event) : M unit := fun _ w => (Return tt, w, [e]).

Definition history : M (list Event) := fun past w => (Return past, w, []).

Definition modify (f : World -> World) : M unit := fun _ w => (Return tt, f w, []).

(** [try { body } catch (error) { handler(error) } finally { fin }] *)
Definition try_catch_finally {A} (body : M A) (handler : Exn -> M A) (fin : M unit)
  : M A :=
  fun past w =>
    match body past w with
    | (r1, w1, evs1) =>
        match (match r1 with
               | Return a => (Return a, w1, [])
               | Throw e => handler e (past ++ evs1) w1
               end) with
        | (r2, w2, evs2) =>
            match fin (past ++ evs1 ++ evs2) w2 with
            | (Return _, w3, evs3) => (r2, w3, evs1 ++ evs2 ++ evs3)
            | (Throw e, w3, evs3) => (Throw e, w3, evs1 ++ evs2 ++ evs3)
            end
        end
    end.

Declare Scope service_scope.
Delimit Scope service_scope with service.
Notation "x <- m ;; k" := (bind m (fun x => k))
  (at level 100, m at next level, right associativity) : service_scope.
Notation "m ;;; k" := (bind m (fun _ => k))
  (at level 100, right associativity) : service_scope.
#[local] Open Scope service_scope.

(** [Schema.parse(x)] for a schema that returns its input unchanged
    when it accepts it. *)
Definition parse {A} (issues : string) (ok : A -> bool) (x : A) : M A :=
  if ok x then ret x else throw (ZodError issues).

(** Lifting of a pure computation that may throw. *)
Definition lift {A} (r : Outcome A) : M A := fun _ w => (r, w, []).

(** [items.map(f)] where [f] may throw: the first failure wins. *)
Fixpoint map_outcome {A B} (f : nat -> A -> Outcome B) (n : nat) (items : list A)
  : Outcome (list B) :=
  match items with
  | [] => Return []
  | x :: rest =>
      match f n x with
      | Throw e => Throw e
      | Return y =>
          match map_outcome f (S n) rest with
          | Throw e => Throw e
          | Return ys => Return (y :: ys)
          end
      end
  end.

(** [x || 0] on a joined count. *)
Definition or_zero (c : option Z) : Z := match c with Some n => n | None => 0 end.

(** [!!x] on an optional value that is truthy when present. *)
Definition is_some {A} (x : option A) : bool :=
  match x with Some _ => true | None => false end.

(** [if (s)] on an optional string: absent and empty are falsy. *)
Definition truthy (s : option string) : option string :=
  match s with
  | Some EmptyString => None
  | other => other
  end.

(** ** Response shapes (validation/schemas.ts) *)

(** [meta] of every successful call. *)
Record Meta := {
  request_id : string;
  meta_timestamp : Timestamp;
  meta_org_id : string
}.

(** [APISuccess<T>] *)
Record APISuccess (A : Type) := {
  api_data : A;
  api_meta : Meta
}.
Arguments api_data {A} a.
Arguments api_meta {A} a.

(** [meta.pagination] *)
Record Pagination := {
  cursor : option string;
  has_more : bool;
  limit : Q;
  total_count : option Z
}.

(** [PaginatedResponse<T>] *)
Record PaginatedResponse (A : Type) := {
  page_data : list A;
  page_meta : Meta;
  pagination : Pagination
}.
Arguments page_data {A} p.
Arguments page_meta {A} p.
Arguments pagination {A} p.

(** [count || undefined] *)
Definition count_or_undefined (c : option Z) : option Z :=
  match c with
  | Some 0 => None
  | other => other
  end.

(** [{ ...metadata, key: v }] *)
Fixpoint meta_set (k : string) (v : MetaValue) (m : Metadata) : Metadata :=
  match m with
  | [] => [(k, v)]
  | (k', v') :: m' =>
      if String.eqb k k' then (k, v) :: m' else (k', v') :: meta_set k v m'
  end.

(** [RelationshipResponse] *)
Record RelationshipResponse := {
  rr_id : string;
  rr_org_id : string;
  rr_type : RelationshipType;
  rr_name : string;
  rr_email : option string;
  rr_phone : option string;
  rr_company : option string;
  rr_title : option string;
  rr_avatar_url : option string;
  rr_tags : list string;
  rr_metadata : Metadata;
  rr_propensity_score : float;
  rr_last_interaction_at : option string;
  rr_created_at : string;
  rr_updated_at : string
}.

(** ** Request parameters and their schemas *)

(** [IntentGetParams], before and after [IntentGetParamsSchema]. *)
Record IntentGetParams := {
  get_id : string;
  get_include_relationship : option bool;
  get_include_interactions : option bool
}.

Record IntentGetValidated := {
  v_id : string;
  v_include_relationship : bool;
  v_include_interactions : bool
}.

(** [IntentListParams], before and after [IntentListParamsSchema]. *)
Record IntentListParams := {
  p_cursor : option string;
  p_limit : option Q;
  p_search : option string;
  p_stage : option IntentStage;
  p_priority : option IntentPriority;
  p_relationship_id : option string;
  p_min_value : option float;
  p_max_value : option float;
  p_min_probability : option float;
  p_expected_close_before : option string;
  p_expected_close_after : option string;
  p_sort_by : option SortBy;
  p_sort_order : option SortOrder
}.

Record IntentListValidated := {
  l_cursor : option string;
  l_limit : Q;
  l_search : option string;
  l_stage : option IntentStage;
  l_priority : option IntentPriority;
  l_relationship_id : option string;
  l_min_value : option float;
  l_max_value : option float;
  l_min_probability : option float;
  l_expected_close_before : option string;
  l_expected_close_after : option string;
  l_sort_by : SortBy;
  l_sort_order : SortOrder
}.

(** [RelationshipListParams], before and after
    [RelationshipListParamsSchema]. *)
Record RelationshipListParams := {
  rp_cursor : option string;
  rp_limit : option Q;
  rp_search : option string;
  rp_tags : option (list string);
  rp_type : option RelationshipType;
  rp_min_propensity : option float
}.

Record RelationshipListValidated := {
  rl_cursor : option string;
  rl_limit : Q;
  rl_search : option string;
  rl_tags : option (list string);
  rl_type : option RelationshipType;
  rl_min_propensity : option float
}.

(** An optional field passes when absent or when its check passes. *)
Definition optional {A} (ok : A -> bool) (x : option A) : bool :=
  match x with Some a => ok a | None => true end.

(** [.default(d)] *)
Definition default {A} (d : A) (x : option A) : A :=
  match x with Some a => a | None => d end.

(** [z.number().min(1).max(100)]: any number from 1 to 100, whole or
    not (the schema has no [.int()]). *)
Definition limit_ok (n : Q) : bool := Qle_bool 1 n && Qle_bool n 100.

(** [z.string().max(255)] *)
Definition max255 (s : string) : bool := (String.length s <=? 255)%nat.

(** [z.number().min(0)] *)
Definition min0 (x : float) : bool := Num.ge x 0.

(** [z.number().min(0).max(1)] *)
Definition unit_interval (x : float) : bool := Num.ge x 0 && Num.le x 1.

(** A successful [supabase.rpc('set_config', { setting_name:
    'app.current_org_id', setting_value, is_local: true })].  With
    [is_local] the [set_config] function of the repository's migration
    runs [SET LOCAL]: [setting_value] holds for the transaction of the
    rpc and ends with it.  The client sets the variable in no other
    way, so once the rpc has returned the variable reads empty,
    whatever [setting_value] was. *)
Definition set_config_local (setting_value : string) (w : World) : World :=
  {| current_org_id := ""; measurements := measurements w |}.

Section Operations.

Variable db : Supabase.
Variable rt : Runtime.
Variable context : RequestContext.

(** ** Tenant context (database/client.ts) *)

(** [setOrgContext(orgId)]: throws when the rpc reports an error. *)
Definition setOrgContext (org : string) : M unit :=
  past <- history ;;
  emit (EvSetOrgContext org) ;;;
  match rpc_set_config db past org with
  | Some err => throw (Error ("Failed to set org context: " ++ pg_message err))
  | None => modify (set_config_local org)
  end.

(** [clearOrgContext()]: an rpc error is only warned about. *)
Definition clearOrgContext : M unit :=
  past <- history ;;
  emit EvClearOrgContext ;;;
  match rpc_set_config db past "" with
  | Some err => ret tt
  | None => modify (set_config_local "")
  end.

(** ** Shell steps shared by the methods *)

(** [this.logger.<level>(message, ..)] *)
Definition log (level : LogLevel) (message : string) : M unit :=
  emit (EvLog level message).

(** [PerformanceMonitor.record(operation, duration, tags)] with the
    duration [span.finish()] returned. *)
Definition record (operation : string) (tags : Metadata) : M unit :=
  emit (EvRecord operation) ;;;
  modify (fun w =>
    {| current_org_id := current_org_id w;
       measurements :=
         PerformanceMonitor.record (measurements w) operation
                                   (span_duration rt) (now rt) tags |}).

(** [await query] on [supabase.from(table)...]. *)
Definition await {A} (table : string) (ask : list Event -> Response A)
  : M (Response A) :=
  past <- history ;;
  emit (EvQuery table) ;;;
  ret (ask past).

(** The [catch (error)] block of every method: record the failure
    sample, log, re-throw. *)
Definition on_error {A} (operation failure : string) (e : Exn) : M A :=
  record (operation ++ ".error")
         [("orgId", MStr (orgId context)); ("error", MStr (exn_message e))] ;;;
  log log_error failure ;;;
  throw e.

(** The [if (error) { ...; throw new Error(...) }] step after a query. *)
Definition check_error {A} (resp : Response A) : M unit :=
  match error resp with
  | Some err =>
      log log_error "Database query failed" ;;;
      throw (Error ("Database query failed: " ++ pg_message err))
  | None => ret tt
  end.

Definition make_meta : Meta :=
  {| request_id := requestId context;
     meta_timestamp := now rt;
     meta_org_id := orgId context |}.

(** ** IntentService *)

(** [IntentGetParamsSchema.parse(params)] *)
Definition IntentGetParamsSchema_parse (params : IntentGetParams)
  : M IntentGetValidated :=
  if is_uuid rt (get_id params)
  then ret {| v_id := get_id params;
              v_include_relationship := default false (get_include_relationship params);
              v_include_interactions := default false (get_include_interactions params) |}
  else throw (ZodError (zod_issues rt)).

(** What [IntentListParamsSchema] checks. *)
Definition IntentListParamsSchema_ok (params : IntentListParams) : bool :=
  optional (is_uuid rt) (p_cursor params)
  && optional limit_ok (p_limit params)
  && optional max255 (p_search params)
  && optional (is_uuid rt) (p_relationship_id params)
  && optional min0 (p_min_value params)
  && optional min0 (p_max_value params)
  && optional unit_interval (p_min_probability params)
  && optional (is_date rt) (p_expected_close_before params)
  && optional (is_date rt) (p_expected_close_after params).

(** [IntentListParamsSchema.parse(params)] *)
Definition IntentListParamsSchema_parse (params : IntentListParams)
  : M IntentListValidated :=
  if IntentListParamsSchema_ok params
  then ret {| l_cursor := p_cursor params;
              l_limit := default 20%Q (p_limit params);
              l_search := p_search params;
              l_stage := p_stage params;
              l_priority := p_priority params;
              l_relationship_id := p_relationship_id params;
              l_min_value := p_min_value params;
              l_max_value := p_max_value params;
              l_min_probability := p_min_probability params;
              l_expected_close_before := p_expected_close_before params;
              l_expected_close_after := p_expected_close_after params;
              l_sort_by := default by_updated_at (p_sort_by params);
              l_sort_order := default desc (p_sort_order params) |}
  else throw (ZodError (zod_issues rt)).

(** What [IntentResponseSchema] can reject in an object built from a
    typed row: a malformed identifier or a NaN.  The nested insight
    and action records were accepted by their own schemas when
    generated. *)
Definition IntentResponseSchema_ok (r : IntentResponse.t) : bool :=
  is_uuid rt (IntentResponse.id r)
  && is_uuid rt (IntentResponse.org_id r)
  && is_uuid rt (IntentResponse.relationship_id r)
  && Analytics.number_ok (IntentResponse.value r)
  && Analytics.number_ok (IntentResponse.probability r)
  && optional (fun rel => is_uuid rt (ref_id rel)
                          && Analytics.number_ok (ref_propensity_score rel))
              (IntentResponse.relationship r).

(** The annotate-and-transform step applied to one fetched row: the
    [n]-th row handled by the call draws its identifiers from
    [uuidv4 rt n]. *)
Definition intent_response (n : nat) (include_relationship : bool)
           (interactionCount : option Z) (data : Intent.Row)
  : Outcome IntentResponse.t :=
  let aiInsights :=
    RuleEngine.generateAIInsights (toLocaleString rt) (uuidv4 rt n) (now rt) data in
  let nextBestActions :=
    RuleEngine.generateNextBestActions
      (fun k => uuidv4 rt n (List.length aiInsights + k)%nat) (now rt) data in
  let daysInStage :=
    RuleEngine.calculateDaysInStage (now rt) (Intent.updated_at data) (Intent.stage data) in
  let candidate :=
    {| IntentResponse.id := Intent.id data;
       IntentResponse.org_id := Intent.org_id data;
       IntentResponse.relationship_id := Intent.relationship_id data;
       IntentResponse.title := Intent.title data;
       IntentResponse.description := Intent.description data;
       IntentResponse.value := Intent.value data;
       IntentResponse.currency := Intent.currency data;
       IntentResponse.stage := Intent.stage data;
       IntentResponse.priority := Intent.priority data;
       IntentResponse.expected_close_date := Intent.expected_close_date data;
       IntentResponse.probability := Intent.probability data;
       IntentResponse.ai_insights := aiInsights;
       IntentResponse.next_best_actions := nextBestActions;
       IntentResponse.metadata := Intent.metadata data;
       IntentResponse.created_at := Intent.created_at data;
       IntentResponse.updated_at := Intent.updated_at data;
       IntentResponse.relationship :=
         if include_relationship then Some (Intent.relationships data) else None;
       IntentResponse.days_in_stage := Some daysInStage;
       IntentResponse.interaction_count := interactionCount |} in
  if IntentResponseSchema_ok candidate then Return candidate
  else Throw (ZodError (zod_issues rt)).

(** [IntentService.getIntent(params)] *)
Definition getIntent (params : IntentGetParams) : M (APISuccess IntentResponse.t) :=
  try_catch_finally
    (validatedParams <- IntentGetParamsSchema_parse params ;;
     log log_info "Getting intent" ;;;
     setOrgContext (orgId context) ;;;
     resp <- await "intents"
               (fun past => intents_single db past
                              (v_include_interactions validatedParams)
                              (v_id validatedParams)) ;;
     check_error resp ;;;
     match data resp with
     | None =>
         log log_warn "Intent not found" ;;;
         throw (Error "Intent not found")
     | Some data =>
         let interactionCount :=
           if v_include_interactions validatedParams
           then Some (or_zero (Intent.interactions data))
           else None in
         intent <- lift (intent_response 0 (v_include_relationship validatedParams)
                                         interactionCount data) ;;
         record "intent.get"
                [("orgId", MStr (orgId context));
                 ("intentId", MStr (v_id validatedParams));
                 ("includeRelationship",
                  MBool (v_include_relationship validatedParams))] ;;;
         log log_info "Intent retrieved successfully" ;;;
         ret {| api_data := intent; api_meta := make_meta |}
     end)
    (on_error "intent.get" "Get intent failed")
    clearOrgContext.

(** The query [listIntents] builds from validated parameters. *)
Definition intent_list_query (v : IntentListValidated) : IntentListQuery :=
  {| q_gt_id := truthy (l_cursor v);
     q_textSearch := truthy (l_search v);
     q_eq_stage := l_stage v;
     q_eq_priority := l_priority v;
     q_eq_relationship_id := truthy (l_relationship_id v);
     q_gte_value := l_min_value v;
     q_lte_value := l_max_value v;
     q_gte_probability := l_min_probability v;
     q_lte_expected_close_date := truthy (l_expected_close_before v);
     q_gte_expected_close_date := truthy (l_expected_close_after v);
     q_order := l_sort_by v;
     q_ascending := match l_sort_order v with asc => true | desc => false end;
     q_limit := PrimFloat.add (Num.of_Q (l_limit v)) 1 |}.

(** [IntentService.listIntents(params)] *)
Definition listIntents (params : IntentListParams)
  : M (PaginatedResponse IntentResponse.t) :=
  try_catch_finally
    (validatedParams <- IntentListParamsSchema_parse params ;;
     log log_info "Listing intents" ;;;
     setOrgContext (orgId context) ;;;
     resp <- await "intents"
               (fun past => intents_list db past (intent_list_query validatedParams)) ;;
     check_error resp ;;;
     match data resp with
     | None => throw (TypeError "Cannot read properties of null (reading 'length')")
     | Some data =>
         let hasMore := Num.length_gt (List.length data) (l_limit validatedParams) in
         let intents := JsArray.slice0 (Num.to_integer (l_limit validatedParams)) data in
         let nextCursor :=
           if hasMore then option_map Intent.id (JsArray.last_elem intents)
           else None in
         validatedIntents <-
           lift (map_outcome (fun n item => intent_response n true None item)
                             0%nat intents) ;;
         record "intent.list"
                [("orgId", MStr (orgId context));
                 ("resultCount", MInt (Z.of_nat (List.length validatedIntents)));
                 ("hasSearch", MBool (is_some (truthy (l_search validatedParams))));
                 ("hasFilters", MBool (is_some (l_stage validatedParams)
                                       || is_some (l_priority validatedParams)))] ;;;
         log log_info "Intents listed successfully" ;;;
         ret {| page_data := validatedIntents;
                page_meta := make_meta;
                pagination :=
                  {| cursor := nextCursor;
                     has_more := hasMore;
                     limit := l_limit validatedParams;
                     total_count := count_or_undefined (count resp) |} |}
     end)
    (on_error "intent.list" "List intents failed")
    clearOrgContext.

(** [IntentService.getPipelineAnalytics()] *)
Definition getPipelineAnalytics : M (APISuccess Analytics.PipelineAnalytics) :=
  try_catch_finally
    (log log_info "Getting pipeline analytics" ;;;
     setOrgContext (orgId context) ;;;
     stageResp <- await "intents" (intents_not_closed_lost db) ;;
     match error stageResp with
     | Some stageError =>
         throw (Error ("Failed to get stage data: " ++ pg_message stageError))
     | None =>
     match data stageResp with
     | None => throw (TypeError "Cannot read properties of null (reading 'filter')")
     | Some stageData =>
     closedResp <- await "intents" (intents_closed db) ;;
     match error closedResp with
     | Some closedError =>
         throw (Error ("Failed to get closed deals: " ++ pg_message closedError))
     | None =>
     match data closedResp with
     | None => throw (TypeError "Cannot read properties of null (reading 'length')")
     | Some closedData =>
         analytics <- parse (zod_issues rt) Analytics.PipelineAnalyticsSchema_ok
                            (Analytics.aggregate (now rt) stageData closedData) ;;
         record "intent.pipeline_analytics"
                [("orgId", MStr (orgId context));
                 ("intentCount", MInt (Z.of_nat (List.length stageData)))] ;;;
         log log_info "Pipeline analytics generated successfully" ;;;
         ret {| api_data := analytics; api_meta := make_meta |}
     end end end end)
    (on_error "intent.pipeline_analytics" "Pipeline analytics failed")
    clearOrgContext.

(** ** RelationshipService *)

(** [RelationshipGetParamsSchema.parse(params)], [params = { id }]. *)
Definition RelationshipGetParamsSchema_parse (id : string) : M string :=
  parse (zod_issues rt) (is_uuid rt) id.

(** What [RelationshipListParamsSchema] checks. *)
Definition RelationshipListParamsSchema_ok (params : RelationshipListParams) : bool :=
  optional (is_uuid rt) (rp_cursor params)
  && optional limit_ok (rp_limit params)
  && optional max255 (rp_search params)
  && optional unit_interval (rp_min_propensity params).

(** [RelationshipListParamsSchema.parse(params)] *)
Definition RelationshipListParamsSchema_parse (params : RelationshipListParams)
  : M RelationshipListValidated :=
  if RelationshipListParamsSchema_ok params
  then ret {| rl_cursor := rp_cursor params;
              rl_limit := default 20%Q (rp_limit params);
              rl_search := rp_search params;
              rl_tags := rp_tags params;
              rl_type := rp_type params;
              rl_min_propensity := rp_min_propensity params |}
  else throw (ZodError (zod_issues rt)).

(** What [RelationshipResponseSchema] can reject in an object built
    from a typed row. *)
Definition RelationshipResponseSchema_ok (r : RelationshipResponse) : bool :=
  is_uuid rt (rr_id r)
  && is_uuid rt (rr_org_id r)
  && unit_interval (rr_propensity_score r).

(** The transform step applied to one fetched relationship row. *)
Definition relationship_response (item : Relationship.Row)
  : Outcome RelationshipResponse :=
  let candidate :=
    {| rr_id := Relationship.id item;
       rr_org_id := Relationship.org_id item;
       rr_type := Relationship.type item;
       rr_name := Relationship.name item;
       rr_email := Relationship.email item;
       rr_phone := Relationship.phone item;
       rr_company := Relationship.company item;
       rr_title := Relationship.title item;
       rr_avatar_url := Relationship.avatar_url item;
       rr_tags := Relationship.tags item;
       rr_metadata :=
         meta_set "signal_count" (MInt (or_zero (Relationship.signals item)))
           (meta_set "interaction_count"
                     (MInt (or_zero (Relationship.interactions item)))
                     (Relationship.metadata item));
       rr_propensity_score := Relationship.propensity_score item;
       rr_last_interaction_at := Relationship.last_interaction_at item;
       rr_created_at := Relationship.created_at item;
       rr_updated_at := Relationship.updated_at item |} in
  if RelationshipResponseSchema_ok candidate then Return candidate
  else Throw (ZodError (zod_issues rt)).

(** [RelationshipService.getRelationship(params)] *)
Definition getRelationship (id : string) : M (APISuccess RelationshipResponse) :=
  try_catch_finally
    (validatedId <- RelationshipGetParamsSchema_parse id ;;
     log log_info "Getting relationship" ;;;
     setOrgContext (orgId context) ;;;
     resp <- await "relationships"
               (fun past => relationships_single db past validatedId) ;;
     check_error resp ;;;
     match data resp with
     | None =>
         log log_warn "Relationship not found" ;;;
         throw (Error "Relationship not found")
     | Some data =>
         relationship <- lift (relationship_response data) ;;
         record "relationship.get"
                [("orgId", MStr (orgId context));
                 ("relationshipId", MStr validatedId)] ;;;
         log log_info "Relationship retrieved successfully" ;;;
         ret {| api_data := relationship; api_meta := make_meta |}
     end)
    (on_error "relationship.get" "Get relationship failed")
    clearOrgContext.

(** The query [listRelationships] builds from validated parameters. *)
Definition relationship_list_query (v : RelationshipListValidated)
  : RelationshipListQuery :=
  {| rq_gt_id := truthy (rl_cursor v);
     rq_textSearch := truthy (rl_search v);
     rq_eq_type := rl_type v;
     rq_overlaps_tags :=
       match rl_tags v with
       | Some (t :: ts) => Some (t :: ts)
       | _ => None
       end;
     rq_gte_propensity_score := rl_min_propensity v;
     rq_limit := PrimFloat.add (Num.of_Q (rl_limit v)) 1 |}.

(** [RelationshipService.listRelationships(params)] *)
Definition listRelationships (params : RelationshipListParams)
  : M (PaginatedResponse RelationshipResponse) :=
  try_catch_finally
    (validatedParams <- RelationshipListParamsSchema_parse params ;;
     log log_info "Listing relationships" ;;;
     setOrgContext (orgId context) ;;;
     resp <- await "relationships"
               (fun past => relationships_list db past
                              (relationship_list_query validatedParams)) ;;
     check_error resp ;;;
     match data resp with
     | None => throw (TypeError "Cannot read properties of null (reading 'length')")
     | Some data =>
         let hasMore := Num.length_gt (List.length data) (rl_limit validatedParams) in
         let relationships :=
           JsArray.slice0 (Num.to_integer (rl_limit validatedParams)) data in
         let nextCursor :=
           if hasMore
           then option_map Relationship.id (JsArray.last_elem relationships)
           else None in
         validatedRelationships <-
           lift (map_outcome (fun _ item => relationship_response item)
                             0%nat relationships) ;;
         record "relationship.list"
                [("orgId", MStr (orgId context));
                 ("resultCount",
                  MInt (Z.of_nat (List.length validatedRelationships)));
                 ("hasSearch", MBool (is_some (truthy (rl_search validatedParams))))] ;;;
         log log_info "Relationships listed successfully" ;;;
         ret {| page_data := validatedRelationships;
                page_meta := make_meta;
                pagination :=
                  {| cursor := nextCursor;
                     has_more := hasMore;
                     limit := rl_limit validatedParams;
                     total_count := count_or_undefined (count resp) |} |}
     end)
    (on_error "relationship.list" "List relationships failed")
    clearOrgContext.

End Operations.

End Service.

(* ================================================================== *)
(** * Stage progress of the intent view (components/Views/IntentDetail.tsx) *)

Module IntentDetail.

(** [arr.indexOf(x)]: the first position of [x], or -1. *)
Fixpoint indexOf_from (n : Z) (x : IntentStage) (arr : list IntentStage) : Z :=
  match arr with
  | [] => -1
  | y :: rest => if IntentStage_eqb y x then n else indexOf_from (n + 1) x rest
  end.

Definition indexOf (arr : list IntentStage) (x : IntentStage) : Z := indexOf_from 0 x arr.

(** One row of the "Stage Progress" card. *)
Record ProgressRow := {
  row_stage : IntentStage;
  row_index : Z;
  isPassed : bool;
  isCurrent : bool
}.

(** [arr.map((stage, index) => ...)] from position [index]. *)
Fixpoint rows_from (index : Z) (current : IntentStage) (arr : list IntentStage)
  : list ProgressRow :=
  match arr with
  | [] => []
  | st :: rest =>
      {| row_stage := st;
         row_index := index;
         isPassed :=
           index <? indexOf [discovery; qualification; proposal; negotiation] current;
         isCurrent := IntentStage_eqb current st |}
      :: rows_from (index + 1) current rest
  end.

(** The rows rendered for an intent in stage [current]. *)
Definition stage_progress (current : IntentStage) : list ProgressRow :=
  rows_from 0 current [discovery; qualification; proposal; negotiation; closed_won].

End IntentDetail.

(* ================================================================== *)
(** * Sample data *)

Module Sample.

Definition uuid (k : nat) : string := "00000000-0000-4000-8000-000000000000".

Definition toLocaleString (x : float) : string := "".

(** 2024-01-31T00:00:00Z *)
Definition now : Timestamp := 1706659200000.

Definition acme : RelationshipRef :=
  {| ref_id := "123e4567-e89b-12d3-a456-426614174001";
     ref_name := "John Doe";
     ref_email := Some "john@example.com";
     ref_company := Some "Test Corp";
     ref_propensity_score := 0.85 |}.

(** An intent updated one day before [now]. *)
Definition intent (st : IntentStage) (v p : float) (close : option Timestamp)
  : Intent.Row :=
  {| Intent.id := "123e4567-e89b-12d3-a456-426614174000";
     Intent.org_id := "123e4567-e89b-12d3-a456-426614174002";
     Intent.relationship_id := "123e4567-e89b-12d3-a456-426614174001";
     Intent.title := "Enterprise CRM Implementation";
     Intent.description := None;
     Intent.value := v;
     Intent.currency := "USD";
     Intent.stage := st;
     Intent.priority := prio_high;
     Intent.expected_close_date := close;
     Intent.probability := p;
     Intent.metadata := [];
     Intent.created_at := "2024-01-01T10:00:00Z";
     Intent.updated_at := now - MS_PER_DAY;
     Intent.relationships := acme;
     Intent.interactions := None |}.

Definition negotiation_120k : Intent.Row := intent negotiation 120000 0.5 None.

Definition discovery_150k : Intent.Row := intent discovery 150000 0.1 None.

Definition qualification_85 : Intent.Row := intent qualification 75000 0.85 None.

(** Expected to close ten days before [now]. *)
Definition overdue_75k : Intent.Row :=
  intent proposal 75000 0.5 (Some (now - 10 * MS_PER_DAY)).

(** Three intents that differ in their identifier. *)
Definition with_id (id : string) (i : Intent.Row) : Intent.Row :=
  {| Intent.id := id;
     Intent.org_id := Intent.org_id i;
     Intent.relationship_id := Intent.relationship_id i;
     Intent.title := Intent.title i;
     Intent.description := Intent.description i;
     Intent.value := Intent.value i;
     Intent.currency := Intent.currency i;
     Intent.stage := Intent.stage i;
     Intent.priority := Intent.priority i;
     Intent.expected_close_date := Intent.expected_close_date i;
     Intent.probability := Intent.probability i;
     Intent.metadata := Intent.metadata i;
     Intent.created_at := Intent.created_at i;
     Intent.updated_at := Intent.updated_at i;
     Intent.relationships := Intent.relationships i;
     Intent.interactions := Intent.interactions i |}.

Definition id_a := "00000000-0000-4000-8000-00000000000a".
Definition id_b := "00000000-0000-4000-8000-00000000000b".
Definition id_c := "00000000-0000-4000-8000-00000000000c".
Definition id_d := "00000000-0000-4000-8000-00000000000d".
Definition id_e := "00000000-0000-4000-8000-00000000000e".
Definition id_f := "00000000-0000-4000-8000-00000000000f".

Definition intents3 : list Intent.Row :=
  [with_id id_a negotiation_120k; with_id id_b discovery_150k;
   with_id id_c qualification_85].

Definition contact (id : string) : Relationship.Row :=
  {| Relationship.id := id;
     Relationship.org_id := "123e4567-e89b-12d3-a456-426614174002";
     Relationship.type := individual;
     Relationship.name := "John Doe";
     Relationship.email := Some "john@example.com";
     Relationship.phone := None;
     Relationship.company := Some "Test Corp";
     Relationship.title := None;
     Relationship.avatar_url := None;
     Relationship.tags := ["enterprise"];
     Relationship.metadata := [];
     Relationship.propensity_score := 0.85;
     Relationship.last_interaction_at := None;
     Relationship.created_at := "2024-01-01T10:00:00Z";
     Relationship.updated_at := "2024-01-15T10:00:00Z";
     Relationship.interactions := Some 5;
     Relationship.signals := None |}.

Definition contacts3 : list Relationship.Row := [contact id_d; contact id_e; contact id_f].

Definition answer {A} (rows : A) : Service.Response A :=
  {| Service.data := Some rows; Service.error := None; Service.count := None |}.

(** A database that accepts every call and answers list queries with
    the given rows, and the analytics fetches with no row. *)
Definition db (intents : list Intent.Row) (contacts : list Relationship.Row)
  : Service.Supabase :=
  {| Service.rpc_set_config := fun _ _ => None;
     Service.intents_single := fun _ _ _ => answer negotiation_120k;
     Service.intents_list := fun _ _ => answer intents;
     Service.intents_not_closed_lost := fun _ => answer [];
     Service.intents_closed := fun _ => answer [];
     Service.relationships_single := fun _ id => answer (contact id);
     Service.relationships_list := fun _ _ => answer contacts |}.

Definition failure {A} : Service.Response A :=
  {| Service.data := None;
     Service.error := Some {| Service.pg_message := "connection refused";
                              Service.pg_code := "08006" |};
     Service.count := None |}.

Definition nothing {A} : Service.Response A :=
  {| Service.data := None; Service.error := None; Service.count := None |}.

(** A database whose every fetch fails. *)
Definition failing_db : Service.Supabase :=
  {| Service.rpc_set_config := fun _ _ => None;
     Service.intents_single := fun _ _ _ => failure;
     Service.intents_list := fun _ _ => failure;
     Service.intents_not_closed_lost := fun _ => failure;
     Service.intents_closed := fun _ => failure;
     Service.relationships_single := fun _ _ => failure;
     Service.relationships_list := fun _ _ => failure |}.

(** A database that finds no row by id. *)
Definition void_db : Service.Supabase :=
  {| Service.rpc_set_config := fun _ _ => None;
     Service.intents_single := fun _ _ _ => nothing;
     Service.intents_list := fun _ _ => answer [];
     Service.intents_not_closed_lost := fun _ => answer [];
     Service.intents_closed := fun _ => answer [];
     Service.relationships_single := fun _ _ => nothing;
     Service.relationships_list := fun _ _ => answer [] |}.

(** [{ id }] *)
Definition by_id (id : string) : Service.IntentGetParams :=
  {| Service.get_id := id;
     Service.get_include_relationship := None;
     Service.get_include_interactions := None |}.

Definition runtime : Service.Runtime :=
  {| Service.now := now;
     Service.span_duration := 12.5;
     Service.uuidv4 := fun _ => uuid;
     Service.toLocaleString := toLocaleString;
     Service.is_uuid := fun _ => true;
     Service.is_date := fun _ => true;
     Service.zod_issues := "Invalid input" |}.

(** A host whose zod accepts as UUID the strings of 36 characters. *)
Definition strict_runtime : Service.Runtime :=
  {| Service.now := now;
     Service.span_duration := 12.5;
     Service.uuidv4 := fun _ => uuid;
     Service.toLocaleString := toLocaleString;
     Service.is_uuid := fun s => (String.length s =? 36)%nat;
     Service.is_date := fun _ => true;
     Service.zod_issues := "Invalid uuid" |}.

Definition context : Service.RequestContext :=
  {| Service.orgId := "123e4567-e89b-12d3-a456-426614174002";
     Service.userId := Some "user-1";
     Service.requestId := "test-request-id" |}.

Definition world : Service.World :=
  {| Service.current_org_id := ""; Service.measurements := [] |}.

(** [{ limit: x }] for a number [x]. *)
Definition intent_page_of (x : Q) : Service.IntentListParams :=
  {| Service.p_cursor := None; Service.p_limit := Some x; Service.p_search := None;
     Service.p_stage := None; Service.p_priority := None;
     Service.p_relationship_id := None; Service.p_min_value := None;
     Service.p_max_value := None; Service.p_min_probability := None;
     Service.p_expected_close_before := None; Service.p_expected_close_after := None;
     Service.p_sort_by := None; Service.p_sort_order := None |}.

Definition contact_page_of (x : Q) : Service.RelationshipListParams :=
  {| Service.rp_cursor := None; Service.rp_limit := Some x; Service.rp_search := None;
     Service.rp_tags := None; Service.rp_type := None;
     Service.rp_min_propensity := None |}.

(** [{ limit: n }] for a whole number [n]. *)
Definition intent_page (n : Z) : Service.IntentListParams := intent_page_of (inject_Z n).

Definition contact_page (n : Z) : Service.RelationshipListParams :=
  contact_page_of (inject_Z n).

Definition sample (op : string) (d : float) : PerformanceMonitor.Measurement :=
  {| PerformanceMonitor.operation := op; PerformanceMonitor.duration := d;
     PerformanceMonitor.timestamp := now; PerformanceMonitor.tags := [] |}.

Definition deal (v p : float) (close : option Timestamp) : Analytics.StageRow :=
  {| Analytics.stage := proposal; Analytics.value := v; Analytics.probability := p;
     Analytics.created_at := "2024-01-05T10:00:00Z";
     Analytics.updated_at := now - MS_PER_DAY;
     Analytics.expected_close_date := close |}.

End Sample.

(* ================================================================== *)
(** * Properties of the rule engine *)

(** What the scenario of the specification asks of an action list: a
    "Negotiation Meeting" (priority 1, confidence 0.82) placed before an
    "Executive Meeting" (priority 1, confidence 0.79). *)
Definition is_negotiation_meeting (a : NextBestAction) : bool :=
  String.eqb (act_title a) "Negotiation Meeting"
  && Num.eq (act_priority a) 1 && Num.eq (act_confidence a) 0.82.

Definition is_executive_meeting (a : NextBestAction) : bool :=
  String.eqb (act_title a) "Executive Meeting"
  && Num.eq (act_priority a) 1 && Num.eq (act_confidence a) 0.79.

Definition negotiation_before_executive (actions : list NextBestAction) : Prop :=
  exists m n a b,
    (m < n)%nat /\ nth_error actions m = Some a /\ nth_error actions n = Some b
    /\ is_negotiation_meeting a = true /\ is_executive_meeting b = true.

(** The ordering contract of an action list. *)
Definition action_order (actions : list NextBestAction) : Prop :=
  forall m n a b,
    (m < n)%nat -> nth_error actions m = Some a -> nth_error actions n = Some b ->
    Num.le (act_priority a) (act_priority b) = true
    /\ (Num.eq (act_priority a) (act_priority b) = true ->
        Num.ge (act_confidence a) (act_confidence b) = true).

(** Number of "Executive Meeting" actions in a list. *)
Definition count_executive (actions : list NextBestAction) : nat :=
  List.length (filter is_executive_meeting actions).

(** The "high conversion probability" insight. *)
Definition is_high_conversion (x : AIInsight) : bool :=
  String.eqb (ins_title x) "High Conversion Probability Detected"
  && Num.eq (ins_confidence x) 0.92
  && match ins_type x, ins_impact x with behavioral, high => true | _, _ => false end.

(** The "high-value deal closing soon" insight carrying [d] as its
    [days_to_close]. *)
Definition is_closing_soon (d : Z) (x : AIInsight) : Prop :=
  ins_title x = "High-Value Deal Closing Soon"
  /\ ins_type x = predictive
  /\ ins_confidence x = 0.85%float
  /\ ins_impact x = high
  /\ meta_get "days_to_close" (ins_metadata x) = Some (MInt d).

(* ================================================================== *)
(** * Properties of the aggregator, the recorder and the shell: vocabulary *)

(** The forecast of a horizon in the words of the specification: going
    through the intents in order, one whose expected close date falls
    within the horizon, that is between [now] and [now] plus [days]
    days, adds value x probability to the running sum; any other adds
    nothing. *)
Fixpoint weighted_total_inside_horizon (now : Timestamp) (days : Z) (sum : float)
         (intents : list Analytics.StageRow) : float :=
  match intents with
  | [] => sum
  | i :: rest =>
      match Analytics.expected_close_date i with
      | Some closeDate =>
          if (now <=? closeDate) && (closeDate <=? now + days * MS_PER_DAY)
          then weighted_total_inside_horizon now days
                 (PrimFloat.add sum
                    (PrimFloat.mul (Analytics.value i) (Analytics.probability i)))
                 rest
          else weighted_total_inside_horizon now days sum rest
      | None => weighted_total_inside_horizon now days sum rest
      end
  end.

(** The forecast of a horizon with the horizon read as a cut-off date
    only: an intent whose expected close date is set and not later than
    [now] plus [days] days adds value x probability to the running sum,
    whether that date lies ahead or has already passed; any other adds
    nothing. *)
Fixpoint weighted_total_within (now : Timestamp) (days : Z) (sum : float)
         (intents : list Analytics.StageRow) : float :=
  match intents with
  | [] => sum
  | i :: rest =>
      match Analytics.expected_close_date i with
      | Some closeDate =>
          if closeDate <=? now + days * MS_PER_DAY
          then weighted_total_within now days
                 (PrimFloat.add sum
                    (PrimFloat.mul (Analytics.value i) (Analytics.probability i)))
                 rest
          else weighted_total_within now days sum rest
      | None => weighted_total_within now days sum rest
      end
  end.

(** The [k] most recently recorded of [samples], oldest first. *)
Definition most_recent {A} (k : nat) (samples : list A) : list A :=
  rev (firstn k (rev samples)).

(** A service call whose last step is the release of the tenant context. *)
Definition clears_last {A} (run : Service.Outcome A * Service.World * list Service.Event)
  : Prop :=
  exists steps, snd run = steps ++ [Service.EvClearOrgContext].

(** What [bind] does after a step that succeeds with [a], moves the
    state to [w1] and makes the steps [evs]. *)
Definition continue_with {A B} (past : list Service.Event) (a : A) (w1 : Service.World)
           (evs : list Service.Event) (k : A -> Service.M B) :=
  match k a (past ++ evs) w1 with
  | (r, w2, evs2) => (r, w2, evs ++ evs2)
  end.




(** All averages of a stage entry are zero. *)
Definition zero_averages (m : Analytics.StageMetrics) : Prop :=
  Analytics.avg_value m = 0%float
  /\ Analytics.avg_probability m = 0%float
  /\ Analytics.avg_days_in_stage m = 0%float.

(* ================================================================== *)
(** * Further vocabulary *)

(** What [NextBestActionSchema] checks in a typed action record (the
    enumerated fields and the ISO due date are well-formed by type). *)
Definition NextBestActionSchema_ok (is_uuid : string -> bool) (a : NextBestAction) : bool :=
  is_uuid (act_id a)
  && (1 <=? String.length (act_title a))%nat
  && (String.length (act_title a) <=? 255)%nat
  && (String.length (act_description a) <=? 1000)%nat
  && Num.ge (act_priority a) 1 && Num.le (act_priority a) 10
  && (1 <=? String.length (act_reasoning a))%nat
  && (String.length (act_reasoning a) <=? 500)%nat
  && Num.ge (act_confidence a) 0 && Num.le (act_confidence a) 1.




(** The innermost span of a chain started below [root]: each element
    gives the identifier supply, the clock reading and the operation of
    one [startSpan(operation, parent)], the parent being the span
    started before it. *)
Definition span_chain (root : Telemetry.Span)
           (chain : list ((nat -> string) * float * string)) : Telemetry.Span :=
  fold_left (fun parent c =>
               match c with
               | (uuid, now, op) => Telemetry.startSpan uuid now op (Some parent)
               end)
            chain root.

(** What [maskPII] makes of the value of a PII field. *)
Definition mask_value (v : Json) : Json :=
  if Json_truthy v then Telemetry.MASKED else v.

(** A value a log line may show under a PII key: the mask, or a value
    that is falsy (absent, empty, zero, false, null). *)
Definition harmless (v : option Json) : Prop :=
  match v with
  | Some x => x = Telemetry.MASKED \/ Json_truthy x = false
  | None => True
  end.

(** The rank of the 95th percentile among [n] sorted samples:
    the ceiling of 0.95 n, in integers. *)
Definition rank95 (n : nat) : nat := ((19 * n + 19) / 20)%nat.

(** The binary64 computation [Math.ceil(n * 0.95)] agrees with the
    integer rank. *)
Definition rank95_agrees (n : nat) : bool :=
  match JsMath.ceil_upto n (PrimFloat.mul (Num.of_nat n) 0.95) with
  | Some k => Nat.eqb k (rank95 n)
  | None => false
  end.

(** What every page returned by a list method satisfies: a limit from
    1 to 100, no more items than the limit, a cursor exactly when more
    rows exist, and then as many items as the limit has whole units. *)
Definition page_ok {A} (resp : Service.PaginatedResponse A) : Prop :=
  let page := Service.pagination resp in
  let held := Z.of_nat (List.length (Service.page_data resp)) in
  (1 <= Service.limit page)%Q
  /\ (Service.limit page <= 100)%Q
  /\ (inject_Z held <= Service.limit page)%Q
  /\ Service.is_some (Service.cursor page) = Service.has_more page
  /\ (if Service.has_more page then held = Qfloor (Service.limit page) else True).

(** [a.type === 'meeting'] *)
Definition is_meeting_type (a : NextBestAction) : bool :=
  ActionType_eqb (act_type a) meeting.

(** The due date the rules give an action: three days from now for
    "Send Proposal", none for the others. *)
Definition expected_due_date (now : Timestamp) (a : NextBestAction) : option Timestamp :=
  if String.eqb (act_title a) "Send Proposal"
  then Some (now + 3 * MS_PER_DAY)
  else None.

(** Number of rows in stage [st]. *)
Definition in_stage (st : IntentStage) (intents : list Analytics.StageRow) : nat :=
  List.length (filter (fun i => IntentStage_eqb (Analytics.stage i) st) intents).

(** The operations timed by the steps of a call, in order. *)
Definition recorded (steps : list Service.Event) : list string :=
  flat_map (fun e => match e with Service.EvRecord op => [op] | _ => [] end) steps.

(** The tables queried by the steps of a call, in order. *)
Definition queried (steps : list Service.Event) : list string :=
  flat_map (fun e => match e with Service.EvQuery t => [t] | _ => [] end) steps.

(** Where a call stands with respect to its tenant context: it has not
    called setOrgContext yet, it has called it and not yet released, or
    it has called clearOrgContext. *)
Inductive Phase := before_set | inside_bracket | released.

(** The tenant bracket.  Scanning the steps of a call from [phase]:
    setOrgContext is called only before any other call of it, and with
    [org]; a query is issued only after setOrgContext and before
    clearOrgContext; clearOrgContext is called once, and nothing
    follows it; the steps end released (so there is at least the
    release). *)
Fixpoint bracketed (org : string) (phase : Phase) (steps : list Service.Event) : bool :=
  match steps with
  | [] => match phase with released => true | _ => false end
  | step :: rest =>
      match phase, step with
      | released, _ => false
      | before_set, Service.EvSetOrgContext o =>
          String.eqb o org && bracketed org inside_bracket rest
      | inside_bracket, Service.EvSetOrgContext _ => false
      | before_set, Service.EvQuery _ => false
      | inside_bracket, Service.EvQuery _ => bracketed org inside_bracket rest
      | _, Service.EvClearOrgContext => bracketed org released rest
      | _, Service.EvLog _ _ => bracketed org phase rest
      | _, Service.EvRecord _ => bracketed org phase rest
      end
  end.

(** The label of the one timing sample of a call of [operation]. *)
Definition timing_label {A} (operation : string) (r : Service.Outcome A) : string :=
  match r with
  | Service.Return _ => operation
  | Service.Throw _ => (operation ++ ".error")%string
  end.

(** A run of a method: outcome, final state, steps. *)
Definition outcome_of {A} (run : Service.Outcome A * Service.World * list Service.Event) :=
  fst (fst run).
Definition world_of {A} (run : Service.Outcome A * Service.World * list Service.Event) :=
  snd (fst run).
Definition steps_of {A} (run : Service.Outcome A * Service.World * list Service.Event) :=
  snd run.

(** A call was timed exactly once, under the label its outcome asks
    for, and the buffer took that one sample. *)
Definition timed_once {A} (rt : Service.Runtime) (operation : string)
           (w : Service.World)
           (run : Service.Outcome A * Service.World * list Service.Event) : Prop :=
  recorded (steps_of run) = [timing_label operation (outcome_of run)]
  /\ exists tags,
       Service.measurements (world_of run)
       = PerformanceMonitor.record (Service.measurements w)
           (timing_label operation (outcome_of run))
           (Service.span_duration rt) (Service.now rt) tags.

(** A call rejected at validation: a [ZodError], no tenant context set,
    no query. *)
Definition rejected_untouched {A} (issues : string)
           (run : Service.Outcome A * Service.World * list Service.Event) : Prop :=
  outcome_of run = Service.Throw (Service.ZodError issues)
  /\ queried (steps_of run) = []
  /\ forall o, ~ In (Service.EvSetOrgContext o) (steps_of run).

(** A call stopped by a failure of setOrgContext: that error is what
    it throws, and it has issued no query. *)
Definition stopped_at_set {A}
           (run : Service.Outcome A * Service.World * list Service.Event) : Prop :=
  (exists e, outcome_of run
             = Service.Throw
                 (Service.Error ("Failed to set org context: " ++ Service.pg_message e)))
  /\ queried (steps_of run) = [].

(* ================================================================== *)
(** * Rule engine: next best actions *)

(** Every stage rule yields at most one action; with the value rule the
    list has one of five shapes. *)
Lemma negotiation_actions uuid now i :
  Intent.stage i = negotiation ->
  RuleEngine.generateNextBestActions uuid now i = [RuleEngine.negotiation_meeting uuid 0 i].
Proof.
  intros Hst.
  unfold RuleEngine.generateNextBestActions, RuleEngine.value_actions,
    RuleEngine.stage_actions.
  rewrite Hst. cbn [JsArray.some existsb RuleEngine.negotiation_meeting act_type
                    ActionType_eqb orb negb].
  rewrite andb_false_r. reflexivity.
Qed.

(** C1, as the scenario states it, fails: for the intent in negotiation
    worth 120000 the list holds no "Executive Meeting" after a
    "Negotiation Meeting". *)
Lemma C1_scenario_refuted :
  ~ negotiation_before_executive
      (RuleEngine.generateNextBestActions Sample.uuid Sample.now Sample.negotiation_120k).
Proof.
  rewrite negotiation_actions by reflexivity.
  intros (m & n & a & b & Hlt & _ & Hb & _ & _).
  destruct n as [|n]; [lia|].
  destruct n; discriminate Hb.
Qed.

(** C1 (amended): for an intent in stage negotiation with value 120000,
    generateNextBestActions returns exactly one action, the
    "Negotiation Meeting" (type meeting, priority 1, confidence 0.82),
    and no "Executive Meeting". *)
Theorem C1_negotiation_only uuid now i :
  Intent.stage i = negotiation ->
  Intent.value i = 120000%float ->
  exists a,
    RuleEngine.generateNextBestActions uuid now i = [a]
    /\ act_title a = "Negotiation Meeting"
    /\ act_type a = meeting
    /\ act_priority a = 1%float
    /\ act_confidence a = 0.82%float
    /\ count_executive (RuleEngine.generateNextBestActions uuid now i) = 0%nat.
Proof.
  intros Hst _.
  exists (RuleEngine.negotiation_meeting uuid 0 i).
  rewrite negotiation_actions by exact Hst.
  repeat split; reflexivity.
Qed.

Lemma C1_negotiation_only_witness :
  exists a,
    RuleEngine.generateNextBestActions Sample.uuid Sample.now Sample.negotiation_120k = [a]
    /\ act_title a = "Negotiation Meeting"
    /\ act_type a = meeting
    /\ act_priority a = 1%float
    /\ act_confidence a = 0.82%float
    /\ count_executive
         (RuleEngine.generateNextBestActions Sample.uuid Sample.now Sample.negotiation_120k)
       = 0%nat.
Proof.
  apply (C1_negotiation_only Sample.uuid Sample.now Sample.negotiation_120k);
    reflexivity.
Defined.

(** Case analysis on the branches [generateNextBestActions] can take:
    the stage, the stage rule's guard and the value rule's guard. *)
Ltac action_branches uuid now i :=
  unfold RuleEngine.generateNextBestActions, RuleEngine.value_actions,
    RuleEngine.stage_actions;
  destruct (Intent.stage i);
  destruct (Num.lt (Intent.probability i) 0.3);
  destruct (Num.gt (Intent.probability i) 0.7);
  destruct (14 <? RuleEngine.calculateDaysInStage now (Intent.updated_at i) proposal);
  destruct (Num.gt (Intent.value i) 100000) eqn:Hvalue.

Ltac positions m n :=
  destruct m as [|[|[|m]]]; destruct n as [|[|[|n]]];
  cbn [nth_error]; try lia; try discriminate.

(** C2: for every intent, the list returned by generateNextBestActions
    is in ascending order of priority and, among equal priorities, in
    descending order of confidence: for all positions m < n,
    priority[m] <= priority[n], and confidence[m] >= confidence[n]
    when the priorities are equal. *)
Theorem C2_actions_sorted uuid now i m n a b :
  (m < n)%nat ->
  nth_error (RuleEngine.generateNextBestActions uuid now i) m = Some a ->
  nth_error (RuleEngine.generateNextBestActions uuid now i) n = Some b ->
  Num.le (act_priority a) (act_priority b) = true
  /\ (Num.eq (act_priority a) (act_priority b) = true ->
      Num.ge (act_confidence a) (act_confidence b) = true).
Proof.
  intros Hlt.
  action_branches uuid now i;
    cbn -[PrimFloat.ltb PrimFloat.eqb PrimFloat.sub];
    positions m n;
    intros Ha Hb; injection Ha as <-; injection Hb as <-;
    vm_compute; (split; [reflexivity | intros Heq; first [reflexivity | discriminate Heq]]).
Qed.

Lemma C2_actions_sorted_witness :
  exists a b,
    nth_error (RuleEngine.generateNextBestActions
                 Sample.uuid Sample.now Sample.discovery_150k) 0 = Some a
    /\ nth_error (RuleEngine.generateNextBestActions
                    Sample.uuid Sample.now Sample.discovery_150k) 1 = Some b
    /\ act_title a = "Executive Meeting" /\ act_title b = "Discovery Call"
    /\ Num.le (act_priority a) (act_priority b) = true
    /\ (Num.eq (act_priority a) (act_priority b) = true ->
        Num.ge (act_confidence a) (act_confidence b) = true).
Proof.
  eexists; eexists.
  split; [reflexivity|]. split; [reflexivity|].
  split; [reflexivity|]. split; [reflexivity|].
  apply (C2_actions_sorted Sample.uuid Sample.now Sample.discovery_150k 0 1);
    [lia | reflexivity | reflexivity].
Defined.

(** C3: for every intent with value > 100000, the list returned by
    generateNextBestActions holds exactly one "Executive Meeting"
    action (priority 1, confidence 0.79) if and only if the stage-keyed
    rules produced no meeting-type action; when they produced one, no
    executive meeting is appended. *)
Theorem C3_executive_meeting uuid now i :
  Num.gt (Intent.value i) 100000 = true ->
  let stage_meeting :=
    JsArray.some (fun a => ActionType_eqb (act_type a) meeting)
                 (RuleEngine.stage_actions uuid now i) in
  let actions := RuleEngine.generateNextBestActions uuid now i in
  (count_executive actions = 1%nat <-> stage_meeting = false)
  /\ (stage_meeting = true -> count_executive actions = 0%nat).
Proof.
  intros Hv. cbv zeta.
  action_branches uuid now i; try discriminate Hv;
    vm_compute; split; try split; intros; try reflexivity; try discriminate.
Qed.

Lemma C3_executive_meeting_witness :
  (count_executive
     (RuleEngine.generateNextBestActions Sample.uuid Sample.now Sample.discovery_150k)
   = 1%nat
   <-> JsArray.some (fun a => ActionType_eqb (act_type a) meeting)
                    (RuleEngine.stage_actions Sample.uuid Sample.now Sample.discovery_150k)
       = false)
  /\ (JsArray.some (fun a => ActionType_eqb (act_type a) meeting)
                   (RuleEngine.stage_actions Sample.uuid Sample.now Sample.discovery_150k)
      = true ->
      count_executive
        (RuleEngine.generateNextBestActions Sample.uuid Sample.now Sample.discovery_150k)
      = 0%nat).
Proof.
  apply (C3_executive_meeting Sample.uuid Sample.now Sample.discovery_150k).
  reflexivity.
Defined.

(* ================================================================== *)
(** * Rule engine: insights *)

Lemma ceil_days_nonpos ms : ms <= 0 -> ceil_days ms <= 0.
Proof.
  intros H. unfold ceil_days.
  assert (0 <= (- ms) / MS_PER_DAY) by (apply Z.div_pos; [lia | reflexivity]).
  lia.
Qed.

(** The later rules only push: what an earlier rule emitted stays. *)
Lemma contextual_step_keeps uuid now i l x :
  In x l -> In x (RuleEngine.contextual_step uuid now i l).
Proof.
  intros H. unfold RuleEngine.contextual_step.
  destruct (_ && _); [apply in_or_app; left|]; exact H.
Qed.

(** C4: for every intent in stage qualification with probability p in
    [0,1], generateAIInsights emits the "high conversion probability"
    behavioral insight (confidence 0.92, impact high) if and only if
    p > 0.8. *)
Theorem C4_high_conversion_iff tls uuid now i :
  Intent.stage i = qualification ->
  Num.le 0 (Intent.probability i) = true ->
  Num.le (Intent.probability i) 1 = true ->
  existsb is_high_conversion (RuleEngine.generateAIInsights tls uuid now i) = true
  <-> Num.gt (Intent.probability i) 0.8 = true.
Proof.
  intros Hst _ _.
  unfold RuleEngine.generateAIInsights, RuleEngine.contextual_step,
    RuleEngine.predictive_step, RuleEngine.behavioral_step.
  rewrite Hst.
  destruct (Num.gt (Intent.probability i) 0.8);
    destruct (Num.gt (Intent.value i) 50000);
    destruct (Intent.expected_close_date i) as [closeDate|];
    try destruct (ceil_days (closeDate - now) <? 30);
    destruct (30 <? RuleEngine.calculateDaysInStage now (Intent.updated_at i) qualification);
    cbn -[PrimFloat.eqb PrimFloat.ltb show_int];
    split; intros H; first [reflexivity | discriminate H].
Qed.

Lemma C4_high_conversion_iff_witness :
  existsb is_high_conversion
    (RuleEngine.generateAIInsights Sample.toLocaleString Sample.uuid Sample.now
                                   Sample.qualification_85) = true
  <-> Num.gt (Intent.probability Sample.qualification_85) 0.8 = true.
Proof.
  apply (C4_high_conversion_iff Sample.toLocaleString Sample.uuid Sample.now
                                Sample.qualification_85); reflexivity.
Defined.

(** C10: for every intent with value > 50000 whose expected close date
    is at or before the current time, generateAIInsights still emits
    the "High-Value Deal Closing Soon" predictive insight, and its
    days_to_close is zero or negative: the rule bounds the days to
    close from above only. *)
Theorem C10_overdue_still_closing_soon tls uuid now i closeDate :
  Num.gt (Intent.value i) 50000 = true ->
  Intent.expected_close_date i = Some closeDate ->
  closeDate <= now ->
  exists x d,
    In x (RuleEngine.generateAIInsights tls uuid now i)
    /\ is_closing_soon d x
    /\ d = ceil_days (closeDate - now)
    /\ d <= 0.
Proof.
  intros Hv Hc Hle.
  assert (Hd : ceil_days (closeDate - now) <= 0) by (apply ceil_days_nonpos; lia).
  set (l := RuleEngine.behavioral_step uuid now i []).
  exists (RuleEngine.closing_soon_insight tls uuid now (List.length l) i
                                          (ceil_days (closeDate - now))),
         (ceil_days (closeDate - now)).
  split.
  - unfold RuleEngine.generateAIInsights. apply contextual_step_keeps.
    unfold RuleEngine.predictive_step. rewrite Hv, Hc.
    replace (ceil_days (closeDate - now) <? 30) with true
      by (symmetry; apply Z.ltb_lt; lia).
    apply in_or_app. right. left. reflexivity.
  - split; [|split; [reflexivity | exact Hd]].
    repeat split.
Qed.

Lemma C10_overdue_still_closing_soon_witness :
  exists x d,
    In x (RuleEngine.generateAIInsights Sample.toLocaleString Sample.uuid Sample.now
                                        Sample.overdue_75k)
    /\ is_closing_soon d x
    /\ d = ceil_days (Sample.now - 10 * MS_PER_DAY - Sample.now)
    /\ d <= 0.
Proof.
  apply (C10_overdue_still_closing_soon Sample.toLocaleString Sample.uuid Sample.now
           Sample.overdue_75k (Sample.now - 10 * MS_PER_DAY));
    [reflexivity | reflexivity | vm_compute; discriminate].
Defined.


(* ================================================================== *)
(** * Pipeline analytics: forecasting *)

Lemma horizon_ms days : days * 24 * 60 * 60 * 1000 = days * MS_PER_DAY.
Proof. unfold MS_PER_DAY. lia. Qed.

(** Filtering then reducing is the running sum over the intents that
    close by the horizon. *)
Lemma forecast_fold now days intents sum :
  fold_left
    (fun sum i => PrimFloat.add sum
                    (PrimFloat.mul (Analytics.value i) (Analytics.probability i)))
    (filter (Analytics.closes_by now days) intents) sum
  = weighted_total_within now days sum intents.
Proof.
  revert sum.
  induction intents as [|i rest IH]; intros sum; [reflexivity|].
  cbn [filter weighted_total_within]. unfold Analytics.closes_by at 1.
  rewrite horizon_ms.
  destruct (Analytics.expected_close_date i) as [closeDate|]; [|apply IH].
  destruct (closeDate <=? now + days * MS_PER_DAY); [|apply IH].
  cbn [fold_left]. apply IH.
Qed.

(** C8 as stated fails: a deal whose expected close date passed ten
    days ago does not fall within the next 30 days, so the sum over the
    intents inside the horizon is 0; generateForecasting counts it all
    the same and reports 4000 x 0.25 = 1000. *)
Lemma C8_overdue_deal_counted :
  let intents := [Sample.deal 4000 0.25 (Some (Sample.now - 10 * MS_PER_DAY))] in
  Analytics.next_30_days (Analytics.generateForecasting Sample.now intents) = 1000%float
  /\ weighted_total_inside_horizon Sample.now 30 0 intents = 0%float
  /\ Analytics.next_30_days (Analytics.generateForecasting Sample.now intents)
     <> weighted_total_inside_horizon Sample.now 30 0 intents.
Proof.
  cbv zeta. split; [reflexivity|]. split; [reflexivity|].
  intros H.
  apply (f_equal (fun x => PrimFloat.eqb x 0)) in H.
  vm_compute in H. discriminate H.
Qed.

(** C8 (amended): for each horizon h in {30, 60, 90} days, the forecast
    value of generateForecasting is the sum of value x probability over
    exactly the input intents whose expected close date is set and is
    not later than now + h days, a date already past included; intents
    without an expected close date contribute nothing; the fixed
    confidence 0.82 accompanies the three figures. *)
Theorem C8_forecast_by_horizon now intents :
  let f := Analytics.generateForecasting now intents in
  Analytics.next_30_days f = weighted_total_within now 30 0 intents
  /\ Analytics.next_60_days f = weighted_total_within now 60 0 intents
  /\ Analytics.next_90_days f = weighted_total_within now 90 0 intents
  /\ Analytics.confidence f = 0.82%float.
Proof.
  cbv zeta.
  unfold Analytics.generateForecasting, Analytics.forecast, JsArray.sum_by.
  cbn [Analytics.next_30_days Analytics.next_60_days Analytics.next_90_days
       Analytics.confidence].
  rewrite !forecast_fold. repeat split.
Qed.

(** The horizon is a cut-off date: an intent without close date adds
    nothing, one due within the horizon adds its weighted value, and so
    does one whose close date has already passed. *)
Example forecast_sample :
  Analytics.next_30_days
    (Analytics.generateForecasting Sample.now
       [Sample.deal 1000 0.5 None;
        Sample.deal 2000 0.5 (Some (Sample.now + 10 * MS_PER_DAY));
        Sample.deal 4000 0.25 (Some (Sample.now - 10 * MS_PER_DAY));
        Sample.deal 8000 0.5 (Some (Sample.now + 40 * MS_PER_DAY))])
  = 2000%float.
Proof. reflexivity. Qed.

(* ================================================================== *)
(** * Timing recorder: retention *)

Lemma most_recent_skipn {A} k (l : list A) :
  most_recent k l = skipn (List.length l - k) l.
Proof.
  unfold most_recent. rewrite firstn_rev. apply rev_involutive.
Qed.

(** One call keeps the buffer within the window, whatever it held. *)
Lemma record_length buf m :
  (List.length (PerformanceMonitor.record_sample buf m) <= PerformanceMonitor.RETENTION)%nat.
Proof.
  unfold PerformanceMonitor.record_sample, PerformanceMonitor.record, JsArray.slice_last.
  set (pushed := buf ++ _).
  destruct (Nat.ltb_spec PerformanceMonitor.RETENTION (List.length pushed)) as [H|H].
  - rewrite length_skipn. lia.
  - exact H.
Qed.

Lemma record_all_snoc samples m :
  PerformanceMonitor.record_all (samples ++ [m])
  = PerformanceMonitor.record_sample (PerformanceMonitor.record_all samples) m.
Proof. unfold PerformanceMonitor.record_all. apply fold_left_app. Qed.

Lemma measurement_eta (m : PerformanceMonitor.Measurement) :
  {| PerformanceMonitor.operation := PerformanceMonitor.operation m;
     PerformanceMonitor.duration := PerformanceMonitor.duration m;
     PerformanceMonitor.timestamp := PerformanceMonitor.timestamp m;
     PerformanceMonitor.tags := PerformanceMonitor.tags m |} = m.
Proof. destruct m; reflexivity. Qed.

(** The buffer is the input with its oldest entries beyond the window
    dropped. *)
Lemma record_all_skipn samples :
  PerformanceMonitor.record_all samples
  = skipn (List.length samples - PerformanceMonitor.RETENTION) samples.
Proof.
  induction samples as [|m samples IH] using rev_ind; [reflexivity|].
  rewrite record_all_snoc, IH.
  unfold PerformanceMonitor.record_sample, PerformanceMonitor.record, JsArray.slice_last.
  rewrite measurement_eta.
  set (R := PerformanceMonitor.RETENTION).
  assert (HR : (0 < R)%nat) by (unfold R, PerformanceMonitor.RETENTION; lia).
  rewrite !length_app, length_skipn. cbn [List.length].
  destruct (Nat.ltb_spec R (List.length samples - (List.length samples - R) + 1)) as [H|H].
  - rewrite !skipn_app, skipn_skipn, length_skipn.
    replace (List.length samples - (List.length samples - R) + 1 - R
             + (List.length samples - R))%nat
      with (List.length samples + 1 - R)%nat by lia.
    replace (List.length samples - (List.length samples - R) + 1 - R
             - (List.length samples - (List.length samples - R)))%nat
      with 0%nat by lia.
    replace (List.length samples + 1 - R - List.length samples)%nat with 0%nat by lia.
    reflexivity.
  - rewrite skipn_app.
    replace (List.length samples + 1 - R)%nat with 0%nat by lia.
    replace (List.length samples - R)%nat with 0%nat by lia.
    reflexivity.
Qed.

(** C9: after every call to PerformanceMonitor.record the buffer holds
    at most 1000 entries, and what it holds is exactly the most
    recently recorded min(total recorded, 1000) samples, in insertion
    order. *)
Theorem C9_retention_window samples :
  let buffer := PerformanceMonitor.record_all samples in
  (List.length buffer <= 1000)%nat
  /\ buffer = most_recent (Nat.min (List.length samples) 1000) samples
  /\ forall m, (List.length (PerformanceMonitor.record_sample buffer m) <= 1000)%nat.
Proof.
  cbv zeta. rewrite record_all_skipn, most_recent_skipn.
  change 1000%nat with PerformanceMonitor.RETENTION.
  set (R := PerformanceMonitor.RETENTION).
  assert (HR : (0 < R)%nat) by (unfold R, PerformanceMonitor.RETENTION; lia).
  split; [|split].
  - rewrite length_skipn. lia.
  - f_equal. lia.
  - intros m. apply record_length.
Qed.

(* ================================================================== *)
(** * Service shell: release of the tenant context *)

(** [clearOrgContext()] never throws and is one step. *)
Lemma clearOrgContext_run db past w :
  exists w',
    Service.clearOrgContext db past w = (Service.Return tt, w', [Service.EvClearOrgContext]).
Proof.
  unfold Service.clearOrgContext, Service.bind, Service.history, Service.emit,
    Service.ret, Service.modify.
  cbn [app].
  destruct (Service.rpc_set_config db _ ""); eexists; reflexivity.
Qed.

(** Whatever the body and the catch block do, a method whose
    [finally] is [clearOrgContext()] ends with that step. *)
Lemma finally_clears {A} db (body : Service.M A) handler past w :
  clears_last (Service.try_catch_finally body handler (Service.clearOrgContext db) past w).
Proof.
  unfold clears_last, Service.try_catch_finally.
  destruct (body past w) as [[r1 w1] evs1].
  destruct (match r1 with
            | Service.Return a => (Service.Return a, w1, [])
            | Service.Throw e => handler e (past ++ evs1) w1
            end) as [[r2 w2] evs2].
  destruct (clearOrgContext_run db (past ++ evs1 ++ evs2) w2) as [w3 ->].
  exists (evs1 ++ evs2). cbn [snd]. now rewrite app_assoc.
Qed.

(** C7: for every service operation (getIntent, listIntents,
    getPipelineAnalytics, getRelationship, listRelationships), whatever
    the parameters, the database answers and the state, hence on every
    exit path (normal return, validation failure, not-found, fetch
    failure), the last step made before the result or the error leaves
    the method is clearOrgContext. *)
Theorem C7_context_cleared_on_every_exit db rt context past w :
  (forall params, clears_last (Service.getIntent db rt context params past w))
  /\ (forall params, clears_last (Service.listIntents db rt context params past w))
  /\ clears_last (Service.getPipelineAnalytics db rt context past w)
  /\ (forall id, clears_last (Service.getRelationship db rt context id past w))
  /\ (forall params, clears_last (Service.listRelationships db rt context params past w)).
Proof.
  repeat split; intros; apply finally_clears.
Qed.

(** The four kinds of exit of [getIntent], on sample inputs. *)
Example getIntent_normal_return :
  snd (Service.getIntent (Sample.db [] []) Sample.strict_runtime Sample.context
         (Sample.by_id "123e4567-e89b-12d3-a456-426614174000") [] Sample.world)
  = [Service.EvLog Service.log_info "Getting intent";
     Service.EvSetOrgContext "123e4567-e89b-12d3-a456-426614174002";
     Service.EvQuery "intents";
     Service.EvRecord "intent.get";
     Service.EvLog Service.log_info "Intent retrieved successfully";
     Service.EvClearOrgContext].
Proof. reflexivity. Qed.

Example getIntent_validation_failure :
  Service.getIntent (Sample.db [] []) Sample.strict_runtime Sample.context
    (Sample.by_id "invalid-uuid") [] Sample.world
  = (Service.Throw (Service.ZodError "Invalid uuid"),
     {| Service.current_org_id := "";
        Service.measurements :=
          [{| PerformanceMonitor.operation := "intent.get.error";
              PerformanceMonitor.duration := 12.5;
              PerformanceMonitor.timestamp := Sample.now;
              PerformanceMonitor.tags :=
                [("orgId", MStr "123e4567-e89b-12d3-a456-426614174002");
                 ("error", MStr "Invalid uuid")] |}] |},
     [Service.EvRecord "intent.get.error";
      Service.EvLog Service.log_error "Get intent failed";
      Service.EvClearOrgContext]).
Proof. reflexivity. Qed.

Example getIntent_not_found :
  let run := Service.getIntent Sample.void_db Sample.strict_runtime Sample.context
               (Sample.by_id "123e4567-e89b-12d3-a456-426614174000") [] Sample.world in
  fst (fst run) = Service.Throw (Service.Error "Intent not found")
  /\ snd run
     = [Service.EvLog Service.log_info "Getting intent";
        Service.EvSetOrgContext "123e4567-e89b-12d3-a456-426614174002";
        Service.EvQuery "intents";
        Service.EvLog Service.log_warn "Intent not found";
        Service.EvRecord "intent.get.error";
        Service.EvLog Service.log_error "Get intent failed";
        Service.EvClearOrgContext].
Proof. split; reflexivity. Qed.

Example getIntent_fetch_failure :
  let run := Service.getIntent Sample.failing_db Sample.strict_runtime Sample.context
               (Sample.by_id "123e4567-e89b-12d3-a456-426614174000") [] Sample.world in
  fst (fst run)
  = Service.Throw (Service.Error "Database query failed: connection refused")
  /\ snd run
     = [Service.EvLog Service.log_info "Getting intent";
        Service.EvSetOrgContext "123e4567-e89b-12d3-a456-426614174002";
        Service.EvQuery "intents";
        Service.EvLog Service.log_error "Database query failed";
        Service.EvRecord "intent.get.error";
        Service.EvLog Service.log_error "Get intent failed";
        Service.EvClearOrgContext].
Proof. split; reflexivity. Qed.


(* ================================================================== *)
(** * Service shell: running the steps of a method *)

Section Runs.
Context {B : Type}.
Variable k : unit -> Service.M B.
Variables (past : list Service.Event) (w : Service.World).

Lemma bind_log level message :
  Service.bind (Service.log level message) k past w
  = continue_with past tt w [Service.EvLog level message] k.
Proof. reflexivity. Qed.

Lemma bind_record rt operation tags :
  Service.bind (Service.record rt operation tags) k past w
  = continue_with past tt
      {| Service.current_org_id := Service.current_org_id w;
         Service.measurements :=
           PerformanceMonitor.record (Service.measurements w) operation
             (Service.span_duration rt) (Service.now rt) tags |}
      [Service.EvRecord operation] k.
Proof.
  unfold Service.record, Service.bind, Service.emit, Service.modify, continue_with.
  cbn [app]. rewrite ?app_nil_r. reflexivity.
Qed.

Lemma bind_setOrgContext db org :
  (forall h, Service.rpc_set_config db h org = None) ->
  Service.bind (Service.setOrgContext db org) k past w
  = continue_with past tt (Service.set_config_local org w)
      [Service.EvSetOrgContext org] k.
Proof.
  intros H.
  unfold Service.setOrgContext, Service.bind, Service.history, Service.emit,
    Service.modify, continue_with.
  cbn [app]. rewrite H, ?app_nil_r. reflexivity.
Qed.


End Runs.

Lemma bind_await {A B} table (ask : list Service.Event -> Service.Response A)
      (k : Service.Response A -> Service.M B) past w :
  Service.bind (Service.await table ask) k past w
  = continue_with past (ask past) w [Service.EvQuery table] k.
Proof.
  unfold Service.await, Service.bind, Service.history, Service.emit, Service.ret,
    continue_with.
  cbn [app]. rewrite ?app_nil_r. reflexivity.
Qed.

Lemma bind_return {A B} (a : A) (k : A -> Service.M B) past w :
  Service.bind (Service.ret a) k past w = continue_with past a w [] k.
Proof. reflexivity. Qed.


(** One step of a method body that goes through. *)
Ltac run_step :=
  first [ rewrite bind_log | rewrite bind_record | rewrite bind_await
        | rewrite bind_return ];
  unfold continue_with at 1.

(** The [finally] of a method whose body returned. *)
Ltac run_finally db :=
  match goal with
  | |- context [Service.clearOrgContext db ?h ?w2] =>
      destruct (clearOrgContext_run db h w2) as [? ->]
  end.

(* ================================================================== *)
(** * Pipeline analytics: the empty pipeline *)

Lemma aggregate_empty_ok now :
  Analytics.PipelineAnalyticsSchema_ok (Analytics.aggregate now [] []) = true.
Proof. reflexivity. Qed.

(** C6: when getPipelineAnalytics runs over no intent at all (the open
    pipeline fetch and the closed deals fetch both answer with zero
    rows), the call returns, no exception is raised by the aggregation,
    and avg_deal_size, overall_conversion_rate and the averages
    (avg_value, avg_probability, avg_days_in_stage) of each of the five
    stage entries are 0. *)
Theorem C6_empty_pipeline db rt context past w :
  (forall h, Service.rpc_set_config db h (Service.orgId context) = None) ->
  (forall h, Service.data (Service.intents_not_closed_lost db h) = Some []
             /\ Service.error (Service.intents_not_closed_lost db h) = None) ->
  (forall h, Service.data (Service.intents_closed db h) = Some []
             /\ Service.error (Service.intents_closed db h) = None) ->
  exists resp w' steps,
    Service.getPipelineAnalytics db rt context past w = (Service.Return resp, w', steps)
    /\ Service.api_data resp = Analytics.aggregate (Service.now rt) [] []
    /\ Analytics.avg_deal_size (Service.api_data resp) = 0%float
    /\ Analytics.overall_conversion_rate (Service.api_data resp) = 0%float
    /\ map Analytics.sm_stage (Analytics.stage_metrics (Service.api_data resp))
       = [discovery; qualification; proposal; negotiation; closed_won]
    /\ Forall zero_averages (Analytics.stage_metrics (Service.api_data resp)).
Proof.
  intros Hset Hstage Hclosed.
  unfold Service.getPipelineAnalytics, Service.try_catch_finally.
  run_step.
  rewrite bind_setOrgContext by exact Hset. unfold continue_with at 1.
  run_step. rewrite (proj2 (Hstage _)), (proj1 (Hstage _)).
  run_step. rewrite (proj2 (Hclosed _)), (proj1 (Hclosed _)).
  unfold Service.parse. rewrite aggregate_empty_ok.
  do 3 run_step. unfold Service.ret. cbn [app].
  run_finally db.
  do 3 eexists. split; [reflexivity|].
  cbn [Service.api_data].
  split; [reflexivity|]. split; [reflexivity|]. split; [reflexivity|].
  split; [reflexivity|].
  repeat constructor.
Qed.

Lemma C6_empty_pipeline_witness :
  exists resp w' steps,
    Service.getPipelineAnalytics (Sample.db [] []) Sample.runtime Sample.context
                                 [] Sample.world
    = (Service.Return resp, w', steps)
    /\ Service.api_data resp = Analytics.aggregate (Service.now Sample.runtime) [] []
    /\ Analytics.avg_deal_size (Service.api_data resp) = 0%float
    /\ Analytics.overall_conversion_rate (Service.api_data resp) = 0%float
    /\ map Analytics.sm_stage (Analytics.stage_metrics (Service.api_data resp))
       = [discovery; qualification; proposal; negotiation; closed_won]
    /\ Forall zero_averages (Analytics.stage_metrics (Service.api_data resp)).
Proof.
  apply (C6_empty_pipeline (Sample.db [] []) Sample.runtime Sample.context [] Sample.world);
    intros h; [reflexivity | split; reflexivity | split; reflexivity].
Defined.

(* ================================================================== *)
(** * List operations: pagination *)




(** A validated limit lies between 1 and 100. *)
Lemma default_limit_range (l : option Q) :
  Service.optional Service.limit_ok l = true ->
  (1 <= Service.default 20%Q l)%Q /\ (Service.default 20%Q l <= 100)%Q.
Proof.
  destruct l as [n|]; cbn [Service.optional Service.default].
  - unfold Service.limit_ok. intros H. apply andb_true_iff in H as [H1 H2].
    split; now apply Qle_bool_iff.
  - intros _. split; apply Qle_bool_iff; reflexivity.
Qed.

Lemma intent_limit_range rt params :
  Service.IntentListParamsSchema_ok rt params = true ->
  (1 <= Service.default 20%Q (Service.p_limit params))%Q
  /\ (Service.default 20%Q (Service.p_limit params) <= 100)%Q.
Proof.
  intros Hok. apply default_limit_range. unfold Service.IntentListParamsSchema_ok in Hok.
  repeat (apply andb_true_iff in Hok as [Hok ?]). assumption.
Qed.

Lemma relationship_limit_range rt params :
  Service.RelationshipListParamsSchema_ok rt params = true ->
  (1 <= Service.default 20%Q (Service.rp_limit params))%Q
  /\ (Service.default 20%Q (Service.rp_limit params) <= 100)%Q.
Proof.
  intros Hok. apply default_limit_range.
  unfold Service.RelationshipListParamsSchema_ok in Hok.
  repeat (apply andb_true_iff in Hok as [Hok ?]). assumption.
Qed.

(** On a limit of at least 1, slicing and the comparison with a length
    only see the whole units of the limit. *)
Lemma to_integer_floor l : (1 <= l)%Q -> Num.to_integer l = Qfloor l.
Proof.
  intros H. unfold Num.to_integer.
  replace (Qle_bool 0 l) with true; [reflexivity|].
  symmetry. apply Qle_bool_iff. apply Qle_trans with 1%Q; [|exact H].
  apply Qle_bool_iff. reflexivity.
Qed.

Lemma length_gt_floor n l : Num.length_gt n l = (Qfloor l <? Z.of_nat n).
Proof.
  unfold Num.length_gt.
  destruct (Z.ltb_spec (Qfloor l) (Z.of_nat n)) as [Hlt|Hge].
  - apply negb_true_iff, not_true_iff_false. intros Hle. apply Qle_bool_iff in Hle.
    apply Qfloor_resp_le in Hle. rewrite Qfloor_Z in Hle. lia.
  - apply negb_false_iff, Qle_bool_iff.
    apply Qle_trans with (inject_Z (Qfloor l)); [|apply Qfloor_le].
    rewrite <- Zle_Qle. exact Hge.
Qed.

Lemma floor_range l : (1 <= l)%Q -> (l <= 100)%Q -> 1 <= Qfloor l <= 100.
Proof.
  intros H1 H2. apply Qfloor_resp_le in H1, H2.
  change (Qfloor 1) with 1 in H1. change (Qfloor 100) with 100 in H2. lia.
Qed.







(* ================================================================== *)
(** * Plain objects: reads after writes *)

Section ObjFacts.
Context {V : Type}.
Implicit Types (o t s : list (string * V)) (k : string) (v : V).

Lemma get_set_same k v o : Obj.get k (Obj.set k v o) = Some v.
Proof.
  induction o as [|[k' v'] o IH]; cbn [Obj.set Obj.get].
  - now rewrite String.eqb_refl.
  - destruct (String.eqb k k') eqn:E; cbn [Obj.get]; rewrite ?String.eqb_refl, ?E; auto.
Qed.

Lemma get_set_other k k' v o : k <> k' -> Obj.get k (Obj.set k' v o) = Obj.get k o.
Proof.
  intros Hne. apply String.eqb_neq in Hne.
  induction o as [|[k2 v2] o IH]; cbn [Obj.set Obj.get].
  - now rewrite Hne.
  - destruct (String.eqb k' k2) eqn:E; cbn [Obj.get].
    + apply String.eqb_eq in E. subst k2. now rewrite Hne.
    + now rewrite IH.
Qed.

Lemma get_app k o1 o2 :
  Obj.get k (o1 ++ o2)
  = match Obj.get k o1 with Some v => Some v | None => Obj.get k o2 end.
Proof.
  induction o1 as [|[k' v'] o1 IH]; cbn [app Obj.get]; [reflexivity|].
  now destruct (String.eqb k k').
Qed.

(** Reading a key after [Object.assign(target, source)]: the last entry
    of [source] for that key, else what [target] held. *)
Lemma get_assign k t s :
  Obj.get k (Obj.assign t s)
  = match Obj.last_of k s with Some v => Some v | None => Obj.get k t end.
Proof.
  unfold Obj.assign, Obj.last_of. revert t.
  induction s as [|[k' v'] s IH]; intros t; cbn [fold_left rev fst snd]; [reflexivity|].
  rewrite IH, get_app. destruct (Obj.get k (rev s)); [reflexivity|].
  cbn [Obj.get]. destruct (String.eqb k k') eqn:E.
  - apply String.eqb_eq in E. subst k'. apply get_set_same.
  - apply String.eqb_neq in E. now apply get_set_other.
Qed.

(** Writing back what a key already holds changes nothing. *)
Lemma set_get_same k v o : Obj.get k o = Some v -> Obj.set k v o = o.
Proof.
  induction o as [|[k' v'] o IH]; cbn [Obj.set Obj.get]; [discriminate|].
  destruct (String.eqb k k') eqn:E.
  - apply String.eqb_eq in E. intros [= ->]. now subst.
  - intros H. now rewrite IH.
Qed.

Lemma get_None_keys k o : Obj.get k o = None <-> ~ In k (map fst o).
Proof.
  induction o as [|[k' v'] o IH]; cbn [Obj.get map fst In]; [tauto|].
  destruct (String.eqb k k') eqn:E.
  - apply String.eqb_eq in E. subst. split; [discriminate | intros H; exfalso; auto].
  - apply String.eqb_neq in E. rewrite IH. split; [intros H [Heq|Hin]; auto | tauto].
Qed.

Lemma set_new k v o : Obj.get k o = None -> Obj.set k v o = o ++ [(k, v)].
Proof.
  induction o as [|[k' v'] o IH]; cbn [Obj.set Obj.get app]; [reflexivity|].
  destruct (String.eqb k k'); [discriminate|]. intros H. now rewrite IH.
Qed.

Lemma set_keys_old k v v0 o :
  Obj.get k o = Some v0 -> map fst (Obj.set k v o) = map fst o.
Proof.
  induction o as [|[k' v'] o IH]; cbn [Obj.set Obj.get map fst]; [discriminate|].
  destruct (String.eqb k k') eqn:E.
  - apply String.eqb_eq in E. now subst.
  - intros H. cbn [map fst]. now rewrite IH.
Qed.

(** An object whose keys are distinct is its own spread. *)
Lemma assign_fresh t s : NoDup (map fst (t ++ s)) -> Obj.assign t s = t ++ s.
Proof.
  unfold Obj.assign. revert t.
  induction s as [|[k v] s IH]; intros t H; cbn [fold_left fst snd].
  - now rewrite app_nil_r.
  - assert (Hk : Obj.get k t = None).
    { apply get_None_keys. rewrite map_app in H. cbn [map fst] in H.
      apply NoDup_remove_2 in H. intros Hin. apply H, in_or_app. now left. }
    rewrite set_new by exact Hk.
    rewrite IH; rewrite <- app_assoc; [reflexivity | exact H].
Qed.

Lemma spread_distinct o : NoDup (map fst o) -> Obj.spread o = o.
Proof. intros H. unfold Obj.spread. now rewrite assign_fresh. Qed.

Lemma set_keeps_distinct k v o : NoDup (map fst o) -> NoDup (map fst (Obj.set k v o)).
Proof.
  intros H. destruct (Obj.get k o) as [v0|] eqn:E.
  - now rewrite (set_keys_old _ _ _ _ E).
  - rewrite set_new by exact E. rewrite map_app. cbn [map fst].
    apply NoDup_app; [exact H | repeat constructor; intros [] |].
    intros x Hx [<-|[]]. now apply get_None_keys in E.
Qed.

Lemma assign_keeps_distinct t s : NoDup (map fst t) -> NoDup (map fst (Obj.assign t s)).
Proof.
  unfold Obj.assign. revert t.
  induction s as [|[k v] s IH]; intros t H; cbn [fold_left]; [exact H|].
  apply IH. now apply set_keeps_distinct.
Qed.

End ObjFacts.

(* ================================================================== *)
(** * Spans *)

(** Reading an own key after one tag assignment. *)
Lemma get_assign_tag k' k v o :
  Obj.get k' (Telemetry.assign_tag k v o)
  = if String.eqb k' k && negb (String.eqb k "__proto__") then Some v else Obj.get k' o.
Proof.
  unfold Telemetry.assign_tag.
  destruct (String.eqb k "__proto__"); [now rewrite andb_false_r|].
  rewrite andb_true_r. destruct (String.eqb k' k) eqn:E.
  - apply String.eqb_eq in E. subst k'. apply get_set_same.
  - apply String.eqb_neq in E. now apply get_set_other.
Qed.

(** Reading an own key after the assignments of [Object.assign]. *)
Lemma get_assign_tags k t o :
  Obj.get k (fold_left (fun o kv => Telemetry.assign_tag (fst kv) (snd kv) o) t o)
  = if String.eqb k "__proto__" then Obj.get k o
    else match Obj.last_of k t with Some x => Some x | None => Obj.get k o end.
Proof.
  unfold Obj.last_of.
  induction t as [|[k1 v1] t IH] using rev_ind.
  - cbn [fold_left rev Obj.get]. now destruct (String.eqb k "__proto__").
  - rewrite fold_left_app, rev_app_distr. cbn [fold_left rev app fst snd Obj.get].
    rewrite get_assign_tag, IH.
    destruct (String.eqb k k1) eqn:E; cbn [andb]; [|reflexivity].
    apply String.eqb_eq in E. subst k1.
    now destruct (String.eqb k "__proto__").
Qed.

(** X1: what a span's tags hold after setTag and setTags.  After
    [setTag(k, v)] the own tag [k] is [v] and every other tag is as
    before, except that the key "__proto__" stores nothing: the tags
    are then unchanged.  After [setTags(t)] an own tag is the value [t]
    supplies for its key (the last one written, "__proto__" again
    excepted) and otherwise the value the span had.  Neither call
    touches the logs, the trace and span identifiers, or the finished
    flag of the span. *)
Theorem span_tags_read s t k k' v :
  let set_one := Telemetry.setTag k v s in
  let set_all := Telemetry.setTags t s in
  Obj.get k' (Telemetry.tags (Telemetry.getContext set_one))
  = (if String.eqb k' k && negb (String.eqb k "__proto__") then Some v
     else Obj.get k' (Telemetry.tags (Telemetry.getContext s)))
  /\ Obj.get k (Telemetry.tags (Telemetry.getContext set_all))
     = (if String.eqb k "__proto__"
        then Obj.get k (Telemetry.tags (Telemetry.getContext s))
        else match Obj.last_of k t with
             | Some x => Some x
             | None => Obj.get k (Telemetry.tags (Telemetry.getContext s))
             end)
  /\ Telemetry.logs (Telemetry.getContext set_one)
     = Telemetry.logs (Telemetry.getContext s)
  /\ Telemetry.traceId (Telemetry.getContext set_one)
     = Telemetry.traceId (Telemetry.getContext s)
  /\ Telemetry.spanId (Telemetry.getContext set_one)
     = Telemetry.spanId (Telemetry.getContext s)
  /\ Telemetry.finished set_one = Telemetry.finished s
  /\ Telemetry.logs (Telemetry.getContext set_all)
     = Telemetry.logs (Telemetry.getContext s)
  /\ Telemetry.traceId (Telemetry.getContext set_all)
     = Telemetry.traceId (Telemetry.getContext s)
  /\ Telemetry.spanId (Telemetry.getContext set_all)
     = Telemetry.spanId (Telemetry.getContext s)
  /\ Telemetry.finished set_all = Telemetry.finished s.
Proof.
  cbv zeta.
  unfold Telemetry.getContext, Telemetry.setTags, Telemetry.setTag, Telemetry.with_tags.
  cbn [Telemetry.context Telemetry.tags Telemetry.logs Telemetry.traceId Telemetry.spanId
       Telemetry.finished].
  split; [apply get_assign_tag|].
  split; [apply get_assign_tags|].
  repeat split.
Qed.

(** A tag named "__proto__" is dropped; any other is stored. *)
Example proto_tag_dropped :
  let span := Telemetry.new_Span Sample.uuid 0 "intent.get" None in
  Telemetry.tags (Telemetry.getContext
                    (Telemetry.setTag "__proto__" (Telemetry.TagStr "x") span)) = []
  /\ Telemetry.tags (Telemetry.getContext
                       (Telemetry.setTags [("orgId", Telemetry.TagStr "org-1");
                                           ("__proto__", Telemetry.TagNum 1);
                                           ("cached", Telemetry.TagBool false)] span))
     = [("orgId", Telemetry.TagStr "org-1"); ("cached", Telemetry.TagBool false)].
Proof. split; reflexivity. Qed.

(** X2: a span is timed once.  The first [finish()] of a new span
    returns the time elapsed since it was created; after any
    [finish()], the span is finished, its context is unchanged, and
    every later [finish()] returns 0 and changes nothing. *)
Theorem span_finish_once uuid t0 op parent now1 now2 s :
  fst (Telemetry.finish now1 (Telemetry.new_Span uuid t0 op parent)) = PrimFloat.sub now1 t0
  /\ Telemetry.finished (snd (Telemetry.finish now1 s)) = true
  /\ Telemetry.getContext (snd (Telemetry.finish now1 s)) = Telemetry.getContext s
  /\ Telemetry.finish now2 (snd (Telemetry.finish now1 s))
     = (0%float, snd (Telemetry.finish now1 s)).
Proof.
  split; [reflexivity|].
  unfold Telemetry.finish, Telemetry.getContext.
  destruct (Telemetry.finished s) eqn:E; cbn [snd Telemetry.finished Telemetry.context];
    rewrite ?E; repeat split.
Qed.

Lemma child_traceId uuid now op parent :
  Telemetry.traceId (Telemetry.getContext parent) <> "" ->
  Telemetry.traceId (Telemetry.getContext (Telemetry.startSpan uuid now op (Some parent)))
  = Telemetry.traceId (Telemetry.getContext parent).
Proof.
  intros Hne. apply String.eqb_neq in Hne.
  unfold Telemetry.startSpan, Telemetry.new_Span, Telemetry.getContext in *.
  cbn [Telemetry.context Telemetry.traceId]. now rewrite Hne.
Qed.

(** X3: trace propagation.  Whatever chain of spans is started below a
    span whose trace id is not empty, each under the previous one, the
    innermost span carries the trace id of the outermost; and a span
    started under a parent records that parent's span id. *)
Theorem descendants_share_trace root chain uuid now op :
  Telemetry.traceId (Telemetry.getContext root) <> "" ->
  Telemetry.traceId (Telemetry.getContext (span_chain root chain))
  = Telemetry.traceId (Telemetry.getContext root)
  /\ Telemetry.parentSpanId
       (Telemetry.getContext
          (Telemetry.startSpan uuid now op (Some (span_chain root chain))))
     = Some (Telemetry.spanId (Telemetry.getContext (span_chain root chain))).
Proof.
  intros Hroot. split; [|reflexivity].
  unfold span_chain. revert root Hroot.
  induction chain as [|[[u t] o] chain IH]; intros root Hroot; [reflexivity|].
  cbn [fold_left]. rewrite IH; rewrite child_traceId; auto.
Qed.

Lemma descendants_share_trace_witness :
  let root := Telemetry.startSpan (fun k => if Nat.eqb k 0 then "trace-1" else "span-1")
                                  0%float "intent.get" None in
  let chain := [((fun _ : nat => "span-2"), 1%float, "db.query");
                ((fun _ : nat => "span-3"), 2%float, "db.parse")] in
  Telemetry.traceId (Telemetry.getContext (span_chain root chain)) = "trace-1"
  /\ Telemetry.parentSpanId
       (Telemetry.getContext
          (Telemetry.startSpan (fun _ => "span-4") 3%float "render"
                               (Some (span_chain root chain))))
     = Some "span-3".
Proof.
  cbv zeta.
  apply (descendants_share_trace
           (Telemetry.startSpan (fun k => if Nat.eqb k 0 then "trace-1" else "span-1")
                                0%float "intent.get" None)
           [((fun _ : nat => "span-2"), 1%float, "db.query");
            ((fun _ : nat => "span-3"), 2%float, "db.parse")]
           (fun _ => "span-4") 3%float "render").
  discriminate.
Defined.


(* ================================================================== *)
(** * Structured logging: masking *)

Lemma get_spread {V} k (o : list (string * V)) : Obj.get k (Obj.spread o) = Obj.last_of k o.
Proof. unfold Obj.spread. rewrite get_assign. now destruct (Obj.last_of k o). Qed.

Lemma get_mask_field k m f :
  Obj.get k (Telemetry.mask_field m f)
  = if String.eqb k f then option_map mask_value (Obj.get f m) else Obj.get k m.
Proof.
  unfold Telemetry.mask_field, mask_value.
  destruct (String.eqb k f) eqn:E.
  - apply String.eqb_eq in E. subst k.
    destruct (Obj.get f m) as [v|] eqn:Hv; [|now rewrite Hv].
    cbn [option_map]. destruct (Json_truthy v); [apply get_set_same | exact Hv].
  - apply String.eqb_neq in E.
    destruct (Obj.get f m) as [v|]; [|reflexivity].
    destruct (Json_truthy v); [now apply get_set_other | reflexivity].
Qed.

(** What a key reads after [maskPII]. *)
Lemma get_maskPII k obj :
  Obj.get k (Telemetry.maskPII obj)
  = if existsb (String.eqb k) Telemetry.piiFields
    then option_map mask_value (Obj.last_of k obj)
    else Obj.last_of k obj.
Proof.
  unfold Telemetry.maskPII, Telemetry.piiFields. cbn [fold_left existsb].
  rewrite <- get_spread.
  repeat (rewrite get_mask_field;
          match goal with
          | |- context [String.eqb k ?f] =>
              destruct (String.eqb k f) eqn:?;
              [ match goal with H : String.eqb k f = true |- _ =>
                  apply String.eqb_eq in H; subst k end;
                repeat (rewrite get_mask_field; cbn [String.eqb Ascii.eqb Bool.eqb]);
                reflexivity
              | cbn [orb] ]
          end).
  reflexivity.
Qed.

Lemma last_of_distinct {V} k (o : list (string * V)) :
  NoDup (map fst o) -> Obj.last_of k o = Obj.get k o.
Proof. intros H. rewrite <- get_spread. now rewrite spread_distinct. Qed.

Lemma maskPII_distinct obj : NoDup (map fst (Telemetry.maskPII obj)).
Proof.
  unfold Telemetry.maskPII, Telemetry.piiFields. cbn [fold_left].
  assert (Hstep : forall m f, NoDup (map fst m) -> NoDup (map fst (Telemetry.mask_field m f))).
  { intros m f H. unfold Telemetry.mask_field.
    destruct (Obj.get f m) as [v|]; [|exact H].
    destruct (Json_truthy v); [now apply set_keeps_distinct | exact H]. }
  repeat apply Hstep. apply assign_keeps_distinct. constructor.
Qed.

Lemma logEntry_distinct iso ctx level message extra :
  NoDup (map fst (Telemetry.logEntry iso ctx level message extra)).
Proof.
  unfold Telemetry.logEntry. do 2 apply assign_keeps_distinct.
  cbn [map fst]. repeat constructor; cbn [In]; intuition discriminate.
Qed.

(** X4: no log line shows personal data at its top level.  Whatever the
    logger's context, the message and the extra fields, each of the
    keys email, phone, ssn, credit_card and password of the object
    written to the console is absent, falsy, or the mask. *)
Theorem log_masks_pii iso ctx level message extra :
  Forall (fun k => harmless (Obj.get k (Telemetry.Logger_log iso ctx level message extra)))
         Telemetry.piiFields.
Proof.
  unfold Telemetry.Logger_log, Telemetry.piiFields.
  repeat constructor; rewrite get_maskPII;
    cbn [existsb Telemetry.piiFields String.eqb Ascii.eqb Bool.eqb orb];
    (destruct (Obj.last_of _ _) as [v|]; cbn [option_map harmless]; [|exact I]);
    unfold mask_value; destruct (Json_truthy v) eqn:E; auto.
Qed.

Lemma not_pii k : ~ In k Telemetry.piiFields -> existsb (String.eqb k) Telemetry.piiFields = false.
Proof.
  intros H. destruct (existsb _ _) eqn:E; [|reflexivity].
  apply existsb_exists in E as (f & Hf & Heq).
  apply String.eqb_eq in Heq. now subst.
Qed.

(** X5: masking is shallow and touches nothing else.  A key other than
    the five PII names reads after [maskPII] exactly what the object
    held, whatever the value: an object or array that itself contains
    an email or a password goes through unmasked. *)
Theorem maskPII_only_top_level obj k :
  ~ In k Telemetry.piiFields ->
  Obj.get k (Telemetry.maskPII obj) = Obj.last_of k obj.
Proof. intros H. rewrite get_maskPII. now rewrite not_pii. Qed.

Lemma maskPII_only_top_level_witness :
  Obj.get "user" (Telemetry.maskPII
                    [("requestId", JStr "r-1");
                     ("user", JObj [("email", JStr "user@example.com");
                                    ("password", JStr "hunter2")])])
  = Some (JObj [("email", JStr "user@example.com"); ("password", JStr "hunter2")]).
Proof.
  apply (maskPII_only_top_level
           [("requestId", JStr "r-1");
            ("user", JObj [("email", JStr "user@example.com");
                           ("password", JStr "hunter2")])] "user").
  cbn [In Telemetry.piiFields]. intuition discriminate.
Defined.

Lemma mask_field_fixed obj f :
  In f Telemetry.piiFields ->
  Telemetry.mask_field (Telemetry.maskPII obj) f = Telemetry.maskPII obj.
Proof.
  intros Hf. unfold Telemetry.mask_field at 1.
  destruct (Obj.get f (Telemetry.maskPII obj)) as [v|] eqn:Hv; [|reflexivity].
  destruct (Json_truthy v) eqn:Ht; [|reflexivity].
  apply set_get_same. rewrite Hv. f_equal.
  rewrite get_maskPII in Hv.
  replace (existsb (String.eqb f) Telemetry.piiFields) with true in Hv
    by (symmetry; apply existsb_exists; exists f; split; [exact Hf | apply String.eqb_refl]).
  destruct (Obj.last_of f obj) as [v0|]; [|discriminate].
  cbn [option_map] in Hv. injection Hv as <-.
  unfold mask_value in *. destruct (Json_truthy v0) eqn:E; [reflexivity|congruence].
Qed.

(** X6: masking twice is masking once: [maskPII(maskPII(obj))] is the
    same object as [maskPII(obj)]. *)
Theorem maskPII_idempotent obj :
  Telemetry.maskPII (Telemetry.maskPII obj) = Telemetry.maskPII obj.
Proof.
  unfold Telemetry.maskPII at 1.
  rewrite spread_distinct by apply maskPII_distinct.
  unfold Telemetry.piiFields at 1. cbn [fold_left].
  rewrite !mask_field_fixed; [reflexivity | | | | |];
    cbn [In Telemetry.piiFields]; tauto.
Qed.

(** X7: precedence of the fields of a log line.  For a logger made by
    [child(additional)] from a logger with context [ctx], a key that is
    not a PII name reads in the logged object: the value of [extra] if
    it has the key, else that of [additional], else that of [ctx], else
    the entry's own timestamp, level or message.  So a caller's field
    named level or message replaces the entry's. *)
Theorem log_field_precedence iso ctx additional level message extra k :
  ~ In k Telemetry.piiFields ->
  Obj.get k (Telemetry.Logger_log iso (Telemetry.child ctx additional) level message extra)
  = match Obj.last_of k extra with
    | Some v => Some v
    | None =>
        match Obj.last_of k additional with
        | Some v => Some v
        | None =>
            match Obj.last_of k ctx with
            | Some v => Some v
            | None =>
                Obj.get k [("timestamp", JStr iso);
                           ("level", JStr (Telemetry.level_name level));
                           ("message", JStr message)]
            end
        end
    end.
Proof.
  intros Hk. unfold Telemetry.Logger_log.
  rewrite get_maskPII, not_pii by exact Hk.
  rewrite last_of_distinct by apply logEntry_distinct.
  unfold Telemetry.logEntry. rewrite !get_assign.
  destruct (Obj.last_of k extra); [reflexivity|].
  rewrite (last_of_distinct k (Telemetry.child ctx additional))
    by (apply assign_keeps_distinct, assign_keeps_distinct; constructor).
  unfold Telemetry.child. rewrite get_assign, get_spread.
  destruct (Obj.last_of k additional); [reflexivity|].
  now destruct (Obj.last_of k ctx).
Qed.

Lemma log_field_precedence_witness :
  Obj.get "level"
    (Telemetry.Logger_log "2024-01-31T00:00:00.000Z"
       (Telemetry.child [("requestId", JStr "r-1")] [("userId", JStr "u-1")])
       Telemetry.info "User data" [("level", JStr "custom")])
  = Some (JStr "custom").
Proof.
  apply (log_field_precedence "2024-01-31T00:00:00.000Z" [("requestId", JStr "r-1")]
           [("userId", JStr "u-1")] Telemetry.info "User data"
           [("level", JStr "custom")] "level").
  cbn [In Telemetry.piiFields]. intuition discriminate.
Defined.


(* ================================================================== *)
(** * Timing recorder: percentiles *)

Lemma insert_perm {A} (cmp : A -> A -> float) x l :
  Permutation (JsArray.insert cmp x l) (x :: l).
Proof.
  induction l as [|y l IH]; cbn [JsArray.insert]; [reflexivity|].
  destruct (Num.gt (cmp x y) 0); [|reflexivity].
  rewrite IH. apply perm_swap.
Qed.

(** [sort] only reorders. *)
Lemma sort_perm {A} (cmp : A -> A -> float) l : Permutation (JsArray.sort cmp l) l.
Proof.
  unfold JsArray.sort.
  induction l as [|x l IH]; cbn [fold_right]; [reflexivity|].
  rewrite insert_perm. now constructor.
Qed.

(** Up to the retention window, rounding never moves the rank. *)
Lemma rank95_checked :
  forallb rank95_agrees (seq 1 PerformanceMonitor.RETENTION) = true.
Proof. vm_compute. reflexivity. Qed.

Lemma rank95_bounds n : (1 <= n)%nat -> (1 <= rank95 n <= n)%nat.
Proof.
  intros H. unfold rank95. split.
  - apply Nat.div_le_lower_bound; lia.
  - apply Nat.lt_succ_r. apply Nat.Div0.div_lt_upper_bound. lia.
Qed.

Lemma at_p95_in_window sorted :
  (1 <= List.length sorted <= PerformanceMonitor.RETENTION)%nat ->
  exists x,
    PerformanceMonitor.at_p95 sorted = PerformanceMonitor.Number x
    /\ nth_error sorted (rank95 (List.length sorted) - 1) = Some x.
Proof.
  intros Hn. unfold PerformanceMonitor.at_p95.
  set (n := List.length sorted) in *.
  pose proof rank95_checked as Hall.
  rewrite forallb_forall in Hall.
  specialize (Hall n). unfold rank95_agrees in Hall.
  destruct (JsMath.ceil_upto n _) as [k|].
  2:{ discriminate Hall. apply in_seq. lia. }
  assert (Hk : k = rank95 n) by (apply Nat.eqb_eq, Hall, in_seq; lia).
  pose proof (rank95_bounds n (proj1 Hn)) as Hb.
  destruct k as [|k]; [lia|].
  replace (rank95 n - 1)%nat with k by lia.
  destruct (nth_error sorted k) as [x|] eqn:Hx.
  - exists x. split; reflexivity.
  - apply nth_error_None in Hx. fold n in Hx. lia.
Qed.

Lemma window_bounded samples op now win :
  (List.length (JsArray.sort PerformanceMonitor.ascending
                  (PerformanceMonitor.window_durations
                     (PerformanceMonitor.record_all samples) op now win))
   <= PerformanceMonitor.RETENTION)%nat.
Proof.
  rewrite (Permutation_length (sort_perm _ _)).
  unfold PerformanceMonitor.window_durations. rewrite length_map.
  etransitivity; [apply filter_length_le|].
  rewrite record_all_skipn, length_skipn.
  assert (0 < PerformanceMonitor.RETENTION)%nat
    by (unfold PerformanceMonitor.RETENTION; lia).
  lia.
Qed.

(** X8: what getP95 answers over the buffer that record keeps.  It is
    never undefined.  It is null exactly when no retained sample has
    the operation and a timestamp after [now - timeWindowMs].
    Otherwise it is the duration of such a sample: the one of rank
    ceil(0.95 n) among the n matching durations in sorted order, the
    binary64 rounding of [n * 0.95] never moving the rank. *)
Theorem getP95_reading samples op now win :
  let buffer := PerformanceMonitor.record_all samples in
  let sorted :=
    JsArray.sort PerformanceMonitor.ascending
                 (PerformanceMonitor.window_durations buffer op now win) in
  match PerformanceMonitor.getP95 buffer op now win with
  | PerformanceMonitor.Null =>
      filter (PerformanceMonitor.in_window op (now - win)) buffer = []
  | PerformanceMonitor.Undefined => False
  | PerformanceMonitor.Number x =>
      nth_error sorted (rank95 (List.length sorted) - 1) = Some x
      /\ exists m, In m buffer
                   /\ PerformanceMonitor.in_window op (now - win) m = true
                   /\ PerformanceMonitor.duration m = x
  end
  /\ (PerformanceMonitor.getP95 buffer op now win = PerformanceMonitor.Null
      <-> filter (PerformanceMonitor.in_window op (now - win)) buffer = []).
Proof.
  cbv zeta.
  pose proof (window_bounded samples op now win) as Hlen.
  pose proof (sort_perm PerformanceMonitor.ascending
                (PerformanceMonitor.window_durations
                   (PerformanceMonitor.record_all samples) op now win)) as Hperm.
  set (buffer := PerformanceMonitor.record_all samples) in *.
  unfold PerformanceMonitor.getP95.
  set (sorted := JsArray.sort _ _) in *.
  destruct sorted as [|d rest] eqn:Hs.
  - apply Permutation_nil in Hperm.
    unfold PerformanceMonitor.window_durations in Hperm.
    apply map_eq_nil in Hperm.
    split; [exact Hperm | tauto].
  - rewrite <- Hs in *.
    destruct (at_p95_in_window sorted) as (x & -> & Hx).
    { rewrite Hs at 1. cbn [List.length]. split; [lia | exact Hlen]. }
    split.
    + split; [exact Hx|].
      apply nth_error_In in Hx.
      apply (Permutation_in _ Hperm) in Hx.
      unfold PerformanceMonitor.window_durations in Hx.
      apply in_map_iff in Hx as (m & Hd & Hm).
      apply filter_In in Hm as [Hin Hw].
      exists m. auto.
    + split; [discriminate|].
      intros Hnil. exfalso.
      unfold PerformanceMonitor.window_durations in Hperm.
      rewrite Hnil in Hperm. cbn [map] in Hperm.
      apply Permutation_sym, Permutation_nil in Hperm.
      rewrite Hperm in Hs. discriminate Hs.
Qed.

(** X9: getStats and getP95 agree.  Over any buffer, the count of
    getStats is the number of samples getP95 looks at, it is 0 exactly
    when getP95 is null, in which case every figure of getStats is 0;
    and the p95 of getStats is getP95's value with a zero or NaN
    duration (or a missing one) turned into 0. *)
Theorem getStats_agrees_with_getP95 measurements op now win :
  let stats := PerformanceMonitor.getStats measurements op now win in
  let reading := PerformanceMonitor.getP95 measurements op now win in
  PerformanceMonitor.count stats
  = List.length (filter (PerformanceMonitor.in_window op (now - win)) measurements)
  /\ PerformanceMonitor.p95 stats = PerformanceMonitor.or_zero reading
  /\ match PerformanceMonitor.count stats with
     | O => reading = PerformanceMonitor.Null
            /\ stats = {| PerformanceMonitor.count := 0;
                          PerformanceMonitor.min := 0;
                          PerformanceMonitor.max := 0;
                          PerformanceMonitor.avg := 0;
                          PerformanceMonitor.p95 := 0 |}
     | S _ => reading <> PerformanceMonitor.Null
     end.
Proof.
  cbv zeta.
  unfold PerformanceMonitor.getStats, PerformanceMonitor.getP95.
  pose proof (sort_perm PerformanceMonitor.ascending
                (PerformanceMonitor.window_durations measurements op now win)) as Hperm.
  assert (Hcount : List.length (PerformanceMonitor.window_durations measurements op now win)
                   = List.length (filter (PerformanceMonitor.in_window op (now - win))
                                         measurements))
    by (unfold PerformanceMonitor.window_durations; apply length_map).
  destruct (PerformanceMonitor.window_durations measurements op now win) as [|d l] eqn:Hw.
  - cbn [JsArray.sort fold_right PerformanceMonitor.count PerformanceMonitor.p95
         PerformanceMonitor.or_zero].
    rewrite <- Hcount. repeat split.
  - cbn [PerformanceMonitor.count PerformanceMonitor.p95]. rewrite <- Hcount.
    destruct (JsArray.sort PerformanceMonitor.ascending (d :: l)) as [|d' l'] eqn:Hs.
    + apply Permutation_nil in Hperm. discriminate Hperm.
    + cbn [List.length]. split; [reflexivity|]. split; [reflexivity|].
      unfold PerformanceMonitor.at_p95.
      destruct (JsMath.ceil_upto _ _) as [[|k]|]; try discriminate.
      destruct (nth_error _ _); discriminate.
Qed.

Lemma record_keeps_new buf op d now tags :
  In {| PerformanceMonitor.operation := op; PerformanceMonitor.duration := d;
        PerformanceMonitor.timestamp := now; PerformanceMonitor.tags := tags |}
     (PerformanceMonitor.record buf op d now tags).
Proof.
  unfold PerformanceMonitor.record, JsArray.slice_last.
  set (m := {| PerformanceMonitor.operation := op |}).
  destruct (Nat.ltb _ _).
  - rewrite skipn_app. apply in_or_app. right.
    rewrite length_app. cbn [List.length].
    replace (List.length buf + 1 - PerformanceMonitor.RETENTION - List.length buf)%nat
      with 0%nat by (unfold PerformanceMonitor.RETENTION; lia).
    now left.
  - apply in_or_app. right. now left.
Qed.

(** X25: a recorded sample is seen for as long as the time window
    reaches back to it.  record reads the clock once (the sample's
    timestamp, [recorded_at]) and getP95 reads it again ([read_at]); if
    the sample is younger than the window, read_at - timeWindowMs <
    recorded_at, then whatever the buffer held (full or not), getP95
    for that operation is a number: neither null nor undefined. *)
Theorem recorded_sample_is_seen samples op d recorded_at tags read_at win :
  read_at - win < recorded_at ->
  exists x,
    PerformanceMonitor.getP95
      (PerformanceMonitor.record (PerformanceMonitor.record_all samples)
                                 op d recorded_at tags)
      op read_at win
    = PerformanceMonitor.Number x.
Proof.
  intros Hwin.
  set (m := {| PerformanceMonitor.operation := op; PerformanceMonitor.duration := d;
               PerformanceMonitor.timestamp := recorded_at;
               PerformanceMonitor.tags := tags |}).
  assert (Hbuf : PerformanceMonitor.record (PerformanceMonitor.record_all samples)
                                          op d recorded_at tags
                 = PerformanceMonitor.record_all (samples ++ [m]))
    by (rewrite record_all_snoc; reflexivity).
  assert (Hin : In m (PerformanceMonitor.record_all (samples ++ [m])))
    by (rewrite <- Hbuf; apply record_keeps_new).
  rewrite Hbuf.
  pose proof (window_bounded (samples ++ [m]) op read_at win) as Hlen.
  pose proof (sort_perm PerformanceMonitor.ascending
                (PerformanceMonitor.window_durations
                   (PerformanceMonitor.record_all (samples ++ [m])) op read_at win))
    as Hperm.
  assert (Hd : In d (PerformanceMonitor.window_durations
                       (PerformanceMonitor.record_all (samples ++ [m])) op read_at win)).
  { unfold PerformanceMonitor.window_durations. apply in_map_iff. exists m.
    split; [reflexivity|]. apply filter_In. split; [exact Hin|].
    unfold PerformanceMonitor.in_window, m.
    cbn [PerformanceMonitor.operation PerformanceMonitor.timestamp].
    rewrite String.eqb_refl. apply Z.ltb_lt. exact Hwin. }
  apply (Permutation_in _ (Permutation_sym Hperm)) in Hd.
  unfold PerformanceMonitor.getP95.
  destruct (JsArray.sort _ _) as [|d0 rest] eqn:Hs; [destruct Hd|].
  rewrite <- Hs in *.
  destruct (at_p95_in_window (JsArray.sort PerformanceMonitor.ascending
              (PerformanceMonitor.window_durations
                 (PerformanceMonitor.record_all (samples ++ [m])) op read_at win)))
    as (x & Hx & _).
  { split; [rewrite Hs; cbn [List.length]; lia | exact Hlen]. }
  exists x. exact Hx.
Qed.

Lemma recorded_sample_is_seen_witness :
  exists x,
    PerformanceMonitor.getP95
      (PerformanceMonitor.record
         (PerformanceMonitor.record_all [Sample.sample "intent.get" 45])
         "intent.get" 67 Sample.now [])
      "intent.get" (Sample.now + 2500) 300000
    = PerformanceMonitor.Number x.
Proof.
  apply (recorded_sample_is_seen [Sample.sample "intent.get" 45] "intent.get" 67
           Sample.now [] (Sample.now + 2500) 300000).
  reflexivity.
Defined.

(** The window is strict: a sample is out of it as soon as the clock
    has advanced by the window's length, be it one millisecond. *)
Example sample_out_of_window :
  PerformanceMonitor.getP95
    (PerformanceMonitor.record [] "intent.get" 67 Sample.now [])
    "intent.get" (Sample.now + 1) 1
  = PerformanceMonitor.Null
  /\ PerformanceMonitor.getP95
       (PerformanceMonitor.record [] "intent.get" 67 Sample.now [])
       "intent.get" Sample.now 1
     = PerformanceMonitor.Number 67.
Proof. split; reflexivity. Qed.

(** The percentile test of the repository: the durations 1..100. *)
Example getP95_of_1_to_100 :
  PerformanceMonitor.getP95
    (PerformanceMonitor.record_all
       (map (fun n => Sample.sample "test-p95" (Num.of_nat n)) (seq 1 100)))
    "test-p95" Sample.now 300000
  = PerformanceMonitor.Number 95.
Proof. vm_compute. reflexivity. Qed.

(* ================================================================== *)
(** * Service shell: every path of every method *)

(** Unfolding of a method down to the steps it is made of. *)
Ltac unfold_method :=
  unfold Service.getIntent, Service.listIntents, Service.getPipelineAnalytics,
    Service.getRelationship, Service.listRelationships,
    Service.try_catch_finally, Service.IntentGetParamsSchema_parse,
    Service.IntentListParamsSchema_parse, Service.RelationshipGetParamsSchema_parse,
    Service.RelationshipListParamsSchema_parse,
    Service.on_error, Service.check_error, Service.setOrgContext,
    Service.clearOrgContext, Service.await, Service.record, Service.log,
    Service.lift, Service.parse, Service.bind, Service.history, Service.emit,
    Service.modify, Service.ret, Service.throw.

(** Case analysis on every test a method makes on a value it does not
    control: a schema's verdict, an answer of the database, the result
    of transforming a row. *)
Ltac reduce_steps :=
  cbn -[PerformanceMonitor.record Service.intent_response
        Service.relationship_response Service.map_outcome
        Analytics.aggregate Analytics.PipelineAnalyticsSchema_ok
        String.append JsArray.slice0 JsArray.last_elem Z.ltb Z.add
        Num.length_gt Num.to_integer Num.of_Q PrimFloat.add
        Service.default Service.IntentListParamsSchema_ok
        Service.RelationshipListParamsSchema_ok].

Ltac split_paths :=
  repeat (reduce_steps;
          match goal with
          | |- context [match ?x with _ => _ end] =>
              lazymatch x with
              | context [match _ with _ => _ end] => fail
              | _ => destruct x eqn:?
              end
          end);
  reduce_steps.

Ltac on_every_path tac :=
  unfold outcome_of, world_of, steps_of; unfold_method; split_paths; tac.

(** X10: every call of a service method is timed exactly once.  The
    steps of the call hold one PerformanceMonitor.record, under the
    operation's name when the call returns and under
    "<operation>.error" when it throws, and the measurements buffer
    after the call is the buffer before it with that one sample
    recorded. *)
Theorem every_call_timed_once db rt context past w :
  (forall params,
      timed_once rt "intent.get" w (Service.getIntent db rt context params past w))
  /\ (forall params,
         timed_once rt "intent.list" w (Service.listIntents db rt context params past w))
  /\ timed_once rt "intent.pipeline_analytics" w
                (Service.getPipelineAnalytics db rt context past w)
  /\ (forall id,
         timed_once rt "relationship.get" w
                    (Service.getRelationship db rt context id past w))
  /\ (forall params,
         timed_once rt "relationship.list" w
                    (Service.listRelationships db rt context params past w)).
Proof.
  unfold timed_once.
  repeat split; intros;
    on_every_path ltac:(first [reflexivity | eexists; reflexivity]).
Qed.

(** What the bracket refuses: no step at all, a query before the
    context is set, a query after the release, the context of another
    organisation, a second bracket, a call that does not end with the
    release. *)
Example bracket_refuses :
  bracketed "org" before_set [] = false
  /\ bracketed "org" before_set
       [Service.EvQuery "intents"; Service.EvSetOrgContext "org";
        Service.EvClearOrgContext] = false
  /\ bracketed "org" before_set
       [Service.EvSetOrgContext "org"; Service.EvClearOrgContext;
        Service.EvQuery "intents"] = false
  /\ bracketed "org" before_set
       [Service.EvSetOrgContext "other"; Service.EvQuery "intents";
        Service.EvClearOrgContext] = false
  /\ bracketed "org" before_set
       [Service.EvSetOrgContext "org"; Service.EvQuery "intents";
        Service.EvClearOrgContext;
        Service.EvSetOrgContext "org"; Service.EvQuery "intents";
        Service.EvClearOrgContext] = false
  /\ bracketed "org" before_set
       [Service.EvSetOrgContext "org"; Service.EvQuery "intents"] = false
  /\ bracketed "org" before_set
       [Service.EvSetOrgContext "org"; Service.EvSetOrgContext "org";
        Service.EvQuery "intents"; Service.EvClearOrgContext] = false.
Proof. repeat split. Qed.

(** X11: every call keeps its queries inside one tenant bracket.  In
    the steps of any call, returned or thrown, setOrgContext is called
    at most once and with the caller's organisation, every database
    query comes after it and before clearOrgContext, and clearOrgContext
    is called exactly once, as the last step. *)
Theorem queries_inside_tenant_bracket db rt context past w :
  (forall params,
      bracketed (Service.orgId context) before_set
                (steps_of (Service.getIntent db rt context params past w)) = true)
  /\ (forall params,
         bracketed (Service.orgId context) before_set
                   (steps_of (Service.listIntents db rt context params past w)) = true)
  /\ bracketed (Service.orgId context) before_set
               (steps_of (Service.getPipelineAnalytics db rt context past w)) = true
  /\ (forall id,
         bracketed (Service.orgId context) before_set
                   (steps_of (Service.getRelationship db rt context id past w)) = true)
  /\ (forall params,
         bracketed (Service.orgId context) before_set
                   (steps_of (Service.listRelationships db rt context params past w))
         = true).
Proof.
  repeat split; intros;
    on_every_path ltac:(rewrite ?String.eqb_refl; reflexivity).
Qed.


(** X12: a call with invalid input never reaches the database.  When
    the parameter schema rejects the input (an id that is not a UUID, a
    limit outside 1..100, ...), the method throws the ZodError without
    having set the tenant context and without having issued a query. *)
Theorem invalid_input_never_reaches_database db rt context past w gp lp id rp :
  Service.is_uuid rt (Service.get_id gp) = false ->
  Service.IntentListParamsSchema_ok rt lp = false ->
  Service.is_uuid rt id = false ->
  Service.RelationshipListParamsSchema_ok rt rp = false ->
  rejected_untouched (Service.zod_issues rt)
                     (Service.getIntent db rt context gp past w)
  /\ rejected_untouched (Service.zod_issues rt)
                        (Service.listIntents db rt context lp past w)
  /\ rejected_untouched (Service.zod_issues rt)
                        (Service.getRelationship db rt context id past w)
  /\ rejected_untouched (Service.zod_issues rt)
                        (Service.listRelationships db rt context rp past w).
Proof.
  intros Hg Hl Hi Hr. unfold rejected_untouched.
  repeat split; try intros o;
    unfold outcome_of, world_of, steps_of; unfold_method;
    rewrite ?Hg, ?Hl, ?Hi, ?Hr; split_paths;
    first [reflexivity | cbn [In]; intuition discriminate].
Qed.

Lemma invalid_input_never_reaches_database_witness :
  rejected_untouched "Invalid uuid"
    (Service.getIntent Sample.failing_db Sample.strict_runtime Sample.context
                       (Sample.by_id "invalid-uuid") [] Sample.world)
  /\ rejected_untouched "Invalid uuid"
       (Service.listIntents Sample.failing_db Sample.strict_runtime Sample.context
                            (Sample.intent_page 0) [] Sample.world)
  /\ rejected_untouched "Invalid uuid"
       (Service.getRelationship Sample.failing_db Sample.strict_runtime Sample.context
                                "42" [] Sample.world)
  /\ rejected_untouched "Invalid uuid"
       (Service.listRelationships Sample.failing_db Sample.strict_runtime Sample.context
                                  (Sample.contact_page 101) [] Sample.world).
Proof.
  apply (invalid_input_never_reaches_database Sample.failing_db Sample.strict_runtime
           Sample.context [] Sample.world (Sample.by_id "invalid-uuid")
           (Sample.intent_page 0) "42" (Sample.contact_page 101));
    reflexivity.
Defined.





(** X15: nothing is fetched without a tenant context.  If setOrgContext
    fails, each method (called with valid input) throws "Failed to set
    org context: ..." and issues no query. *)
Theorem no_query_without_tenant_context db rt context past w gp lp id rp :
  (forall h, Service.rpc_set_config db h (Service.orgId context) <> None) ->
  Service.is_uuid rt (Service.get_id gp) = true ->
  Service.IntentListParamsSchema_ok rt lp = true ->
  Service.is_uuid rt id = true ->
  Service.RelationshipListParamsSchema_ok rt rp = true ->
  stopped_at_set (Service.getIntent db rt context gp past w)
  /\ stopped_at_set (Service.listIntents db rt context lp past w)
  /\ stopped_at_set (Service.getPipelineAnalytics db rt context past w)
  /\ stopped_at_set (Service.getRelationship db rt context id past w)
  /\ stopped_at_set (Service.listRelationships db rt context rp past w).
Proof.
  intros Hset Hg Hl Hi Hr. unfold stopped_at_set.
  repeat split;
    unfold outcome_of, world_of, steps_of; unfold_method;
    rewrite ?Hg, ?Hl, ?Hi, ?Hr;
    split_paths;
    first [ reflexivity
          | eexists; reflexivity
          | exfalso;
            match goal with
            | H : Service.rpc_set_config db _ (Service.orgId context) = None |- _ =>
                exact (Hset _ H)
            end ].
Qed.

Lemma no_query_without_tenant_context_witness :
  let db := {| Service.rpc_set_config :=
                 fun _ _ => Some {| Service.pg_message := "permission denied";
                                    Service.pg_code := "42501" |};
               Service.intents_single := Service.intents_single (Sample.db [] []);
               Service.intents_list := Service.intents_list (Sample.db [] []);
               Service.intents_not_closed_lost :=
                 Service.intents_not_closed_lost (Sample.db [] []);
               Service.intents_closed := Service.intents_closed (Sample.db [] []);
               Service.relationships_single := Service.relationships_single (Sample.db [] []);
               Service.relationships_list := Service.relationships_list (Sample.db [] []) |} in
  stopped_at_set (Service.getIntent db Sample.runtime Sample.context (Sample.by_id "i-1")
                                    [] Sample.world)
  /\ stopped_at_set (Service.listIntents db Sample.runtime Sample.context
                                         (Sample.intent_page 5) [] Sample.world)
  /\ stopped_at_set (Service.getPipelineAnalytics db Sample.runtime Sample.context
                                                  [] Sample.world)
  /\ stopped_at_set (Service.getRelationship db Sample.runtime Sample.context "r-1"
                                             [] Sample.world)
  /\ stopped_at_set (Service.listRelationships db Sample.runtime Sample.context
                                               (Sample.contact_page 5) [] Sample.world).
Proof.
  cbv zeta.
  apply (no_query_without_tenant_context _ Sample.runtime Sample.context [] Sample.world
           (Sample.by_id "i-1") (Sample.intent_page 5) "r-1" (Sample.contact_page 5));
    try reflexivity; intros h; cbn; discriminate.
Defined.


(* ================================================================== *)
(** * List operations: what every page satisfies *)

Lemma map_outcome_length {A B} (f : nat -> A -> Service.Outcome B) items : forall n out,
  Service.map_outcome f n items = Service.Return out ->
  List.length out = List.length items.
Proof.
  induction items as [|x items IH]; intros n out; cbn [Service.map_outcome].
  - intros [= <-]. reflexivity.
  - destruct (f n x); [|discriminate].
    destruct (Service.map_outcome f (S n) items) eqn:E; [|discriminate].
    intros [= <-]. cbn [List.length]. f_equal. eapply IH, E.
Qed.

Lemma page_ok_built {Row A} (rid : Row -> string) l (rows : list Row) (items : list A)
      meta total :
  (1 <= l)%Q -> (l <= 100)%Q ->
  List.length items = List.length (JsArray.slice0 (Num.to_integer l) rows) ->
  page_ok {| Service.page_data := items;
             Service.page_meta := meta;
             Service.pagination :=
               {| Service.cursor :=
                    if Num.length_gt (List.length rows) l
                    then option_map rid
                           (JsArray.last_elem (JsArray.slice0 (Num.to_integer l) rows))
                    else None;
                  Service.has_more := Num.length_gt (List.length rows) l;
                  Service.limit := l;
                  Service.total_count := total |} |}.
Proof.
  intros H1 H100.
  pose proof (floor_range l H1 H100) as HN.
  pose proof (Qfloor_le l) as Hfloor.
  rewrite (to_integer_floor l H1), length_gt_floor.
  set (N := Qfloor l) in *.
  intros Hlen. unfold page_ok.
  cbn [Service.pagination Service.page_data Service.limit Service.cursor Service.has_more].
  fold N.
  unfold JsArray.slice0, JsArray.last_elem in *. rewrite length_firstn in *.
  split; [exact H1|]. split; [exact H100|].
  split.
  { apply Qle_trans with (inject_Z N); [|exact Hfloor]. rewrite <- Zle_Qle. lia. }
  destruct (Z.ltb_spec N (Z.of_nat (List.length rows))) as [Hmore|Hall].
  - replace (Nat.min (Z.to_nat N) (List.length rows)) with (Z.to_nat N) in * by lia.
    split; [|lia].
    destruct (nth_error (firstn (Z.to_nat N) rows) (Z.to_nat N - 1)) eqn:E; [reflexivity|].
    apply nth_error_None in E. rewrite length_firstn in E. lia.
  - split; [reflexivity | exact I].
Qed.

Lemma page_ok_more {Row A} (rid : Row -> string) l (rows : list Row) (items : list A)
      meta total :
  (1 <= l)%Q /\ (l <= 100)%Q ->
  List.length items = List.length (JsArray.slice0 (Num.to_integer l) rows) ->
  Num.length_gt (List.length rows) l = true ->
  page_ok {| Service.page_data := items;
             Service.page_meta := meta;
             Service.pagination :=
               {| Service.cursor :=
                    option_map rid
                      (JsArray.last_elem (JsArray.slice0 (Num.to_integer l) rows));
                  Service.has_more := true;
                  Service.limit := l;
                  Service.total_count := total |} |}.
Proof.
  intros [H1 H100] Hlen Hgt.
  pose proof (page_ok_built rid l rows items meta total H1 H100 Hlen) as H.
  now rewrite Hgt in H.
Qed.

Lemma page_ok_done {Row A} l (rows : list Row) (items : list A) meta total :
  (1 <= l)%Q /\ (l <= 100)%Q ->
  List.length items = List.length (JsArray.slice0 (Num.to_integer l) rows) ->
  Num.length_gt (List.length rows) l = false ->
  page_ok {| Service.page_data := items;
             Service.page_meta := meta;
             Service.pagination :=
               {| Service.cursor := None;
                  Service.has_more := false;
                  Service.limit := l;
                  Service.total_count := total |} |}.
Proof.
  intros [H1 H100] Hlen Hgt.
  pose proof (page_ok_built (fun _ : Row => "") l rows items meta total H1 H100 Hlen) as H.
  now rewrite Hgt in H.
Qed.

(** X16: what every page of intents satisfies.  Whatever the database
    answers (also more rows than asked for) and whatever the accepted
    limit (whole or not), a response returned by listIntents has a
    limit from 1 to 100, holds no more items than the limit, carries a
    cursor exactly when has_more is true, and then holds as many items
    as the limit has whole units: limit items for a whole limit, two
    for a limit of 2.5. *)
Theorem page_never_exceeds_limit db rt context past w params resp :
  outcome_of (Service.listIntents db rt context params past w) = Service.Return resp ->
  page_ok resp.
Proof.
  unfold outcome_of. unfold_method.
  destruct (Service.IntentListParamsSchema_ok rt params) eqn:Hok.
  - pose proof (intent_limit_range rt params Hok) as HN.
    split_paths; intros H; try discriminate H.
    all: injection H as <-.
    all: first [ eapply page_ok_more; [exact HN | | eassumption]
               | eapply page_ok_done; [exact HN | | eassumption] ].
    all: eapply map_outcome_length; eassumption.
  - split_paths; intros H; discriminate H.
Qed.

Lemma page_never_exceeds_limit_witness :
  exists resp,
    outcome_of (Service.listIntents (Sample.db Sample.intents3 Sample.contacts3)
                  Sample.strict_runtime Sample.context (Sample.intent_page_of 2.5)
                  [] Sample.world)
    = Service.Return resp
    /\ page_ok resp.
Proof.
  eexists. split; [reflexivity|].
  apply (page_never_exceeds_limit (Sample.db Sample.intents3 Sample.contacts3)
           Sample.strict_runtime Sample.context [] Sample.world
           (Sample.intent_page_of 2.5)).
  reflexivity.
Defined.

(** X26: what every page of relationships satisfies.  Whatever the
    database answers and whatever the accepted limit (whole or not), a
    response returned by listRelationships has a limit from 1 to 100,
    holds no more items than the limit, carries a cursor exactly when
    has_more is true, and then holds as many items as the limit has
    whole units. *)
Theorem relationship_page_never_exceeds_limit db rt context past w params resp :
  outcome_of (Service.listRelationships db rt context params past w)
  = Service.Return resp ->
  page_ok resp.
Proof.
  unfold outcome_of. unfold_method.
  destruct (Service.RelationshipListParamsSchema_ok rt params) eqn:Hok.
  - pose proof (relationship_limit_range rt params Hok) as HN.
    split_paths; intros H; try discriminate H.
    all: injection H as <-.
    all: first [ eapply page_ok_more; [exact HN | | eassumption]
               | eapply page_ok_done; [exact HN | | eassumption] ].
    all: eapply map_outcome_length; eassumption.
  - split_paths; intros H; discriminate H.
Qed.

Lemma relationship_page_never_exceeds_limit_witness :
  exists resp,
    outcome_of (Service.listRelationships (Sample.db Sample.intents3 Sample.contacts3)
                  Sample.strict_runtime Sample.context (Sample.contact_page 1)
                  [] Sample.world)
    = Service.Return resp
    /\ page_ok resp.
Proof.
  eexists. split; [reflexivity|].
  apply (relationship_page_never_exceeds_limit
           (Sample.db Sample.intents3 Sample.contacts3)
           Sample.strict_runtime Sample.context [] Sample.world (Sample.contact_page 1)).
  reflexivity.
Defined.

(* ================================================================== *)
(** * Relationship responses: merged metadata *)

Lemma meta_get_set k k' v m :
  meta_get k (Service.meta_set k' v m)
  = if String.eqb k k' then Some v else meta_get k m.
Proof.
  induction m as [|[k2 v2] m IH]; cbn [Service.meta_set meta_get].
  - now destruct (String.eqb k k').
  - destruct (String.eqb k' k2) eqn:E; cbn [meta_get].
    + apply String.eqb_eq in E. subst k2. now destruct (String.eqb k k').
    + rewrite IH. destruct (String.eqb k k') eqn:E2; [|reflexivity].
      apply String.eqb_eq in E2. subst k'. now rewrite E.
Qed.

(** X17: the metadata of a relationship response.  Whenever a fetched
    relationship row is accepted, the metadata of the response reads
    the joined interaction and signal counts under interaction_count
    and signal_count (0 when the join is missing), overriding stored
    keys of those names, and reads every other key as stored. *)
Theorem relationship_metadata_merged rt item r k :
  Service.relationship_response rt item = Service.Return r ->
  meta_get k (Service.rr_metadata r)
  = if String.eqb k "signal_count"
    then Some (MInt (Service.or_zero (Relationship.signals item)))
    else if String.eqb k "interaction_count"
         then Some (MInt (Service.or_zero (Relationship.interactions item)))
         else meta_get k (Relationship.metadata item).
Proof.
  unfold Service.relationship_response.
  destruct (Service.RelationshipResponseSchema_ok rt _); [|discriminate].
  intros [= <-]. cbn [Service.rr_metadata].
  now rewrite !meta_get_set.
Qed.

Lemma relationship_metadata_merged_witness :
  exists r,
    Service.relationship_response Sample.runtime (Sample.contact "x") = Service.Return r
    /\ meta_get "interaction_count" (Service.rr_metadata r) = Some (MInt 5)
    /\ meta_get "signal_count" (Service.rr_metadata r) = Some (MInt 0).
Proof.
  eexists. split; [reflexivity|]. split.
  - apply (relationship_metadata_merged Sample.runtime (Sample.contact "x") _
             "interaction_count"). reflexivity.
  - apply (relationship_metadata_merged Sample.runtime (Sample.contact "x") _
             "signal_count"). reflexivity.
Defined.

(* ================================================================== *)
(** * Pipeline analytics: stage entries and horizons *)

Lemma stages_partition intents :
  (in_stage discovery intents + in_stage qualification intents
   + in_stage proposal intents + in_stage negotiation intents
   + in_stage closed_won intents + in_stage closed_lost intents
   = List.length intents)%nat.
Proof.
  unfold in_stage.
  induction intents as [|i intents IH]; [reflexivity|].
  simpl. destruct (Analytics.stage i); simpl; lia.
Qed.

(** X18: the stage entries partition the pipeline.  For any fetched
    rows, the analytics hold exactly five stage entries, in the order
    discovery, qualification, proposal, negotiation, closed-won, each
    counting the rows of its stage; their counts add up to
    total_intents less the closed-lost rows, which no entry counts. *)
Theorem stage_counts_partition now stageData closedData :
  let a := Analytics.aggregate now stageData closedData in
  map Analytics.sm_stage (Analytics.stage_metrics a)
  = [discovery; qualification; proposal; negotiation; closed_won]
  /\ map Analytics.count (Analytics.stage_metrics a)
     = map (fun st => in_stage st stageData)
           [discovery; qualification; proposal; negotiation; closed_won]
  /\ (list_sum (map Analytics.count (Analytics.stage_metrics a))
      + in_stage closed_lost stageData
      = Analytics.total_intents a)%nat.
Proof.
  cbv zeta. unfold Analytics.aggregate, Analytics.calculateStageMetrics, Analytics.stages.
  cbn [Analytics.stage_metrics Analytics.total_intents map Analytics.sm_stage
       Analytics.count list_sum].
  split; [reflexivity|]. split; [reflexivity|].
  pose proof (stages_partition stageData) as H. unfold in_stage, list_sum in *.
  cbn [fold_right]. lia.
Qed.

Lemma no_date_no_match now days intents :
  Forall (fun i => Analytics.expected_close_date i = None) intents ->
  filter (Analytics.closes_by now days) intents = [].
Proof.
  induction 1 as [|i intents Hi _ IH]; [reflexivity|].
  cbn [filter]. unfold Analytics.closes_by at 1. now rewrite Hi.
Qed.

(** X19: without close dates there is no forecast.  When no fetched row
    carries an expected_close_date (the pipeline query of
    getPipelineAnalytics does not select that column), the three
    forecast figures are 0 whatever the values and probabilities. *)
Theorem forecast_needs_close_dates now intents :
  Forall (fun i => Analytics.expected_close_date i = None) intents ->
  Analytics.generateForecasting now intents
  = {| Analytics.next_30_days := 0; Analytics.next_60_days := 0;
       Analytics.next_90_days := 0; Analytics.confidence := 0.82 |}.
Proof.
  intros H. unfold Analytics.generateForecasting, Analytics.forecast.
  now rewrite !no_date_no_match.
Qed.

Lemma forecast_needs_close_dates_witness :
  Analytics.generateForecasting Sample.now
    [Sample.deal 50000 0.8 None; Sample.deal 75000 0.6 None]
  = {| Analytics.next_30_days := 0; Analytics.next_60_days := 0;
       Analytics.next_90_days := 0; Analytics.confidence := 0.82 |}.
Proof.
  apply (forecast_needs_close_dates Sample.now
           [Sample.deal 50000 0.8 None; Sample.deal 75000 0.6 None]).
  repeat constructor.
Defined.

Lemma closes_by_mono now d1 d2 i :
  d1 <= d2 -> Analytics.closes_by now d1 i = true -> Analytics.closes_by now d2 i = true.
Proof.
  unfold Analytics.closes_by. destruct (Analytics.expected_close_date i); [|discriminate].
  intros H H1. apply Z.leb_le in H1. apply Z.leb_le. lia.
Qed.

Lemma filter_nested now d1 d2 intents :
  d1 <= d2 ->
  filter (Analytics.closes_by now d1) (filter (Analytics.closes_by now d2) intents)
  = filter (Analytics.closes_by now d1) intents.
Proof.
  intros H. induction intents as [|i intents IH]; [reflexivity|].
  cbn [filter]. destruct (Analytics.closes_by now d2 i) eqn:E2.
  - cbn [filter]. now rewrite IH.
  - destruct (Analytics.closes_by now d1 i) eqn:E1; [|exact IH].
    apply (closes_by_mono now d1 d2 i H) in E1. congruence.
Qed.

(** X20: the horizons are nested.  The 30-day figure is computed from
    the intents the 60-day figure counts, and the 60-day figure from
    those the 90-day figure counts: dropping every intent outside a
    longer horizon changes no shorter forecast. *)
Theorem forecast_horizons_nested now intents :
  Analytics.next_30_days (Analytics.generateForecasting now intents)
  = Analytics.next_30_days
      (Analytics.generateForecasting now (filter (Analytics.closes_by now 60) intents))
  /\ Analytics.next_60_days (Analytics.generateForecasting now intents)
     = Analytics.next_60_days
         (Analytics.generateForecasting now (filter (Analytics.closes_by now 90) intents))
  /\ Analytics.next_30_days (Analytics.generateForecasting now intents)
     = Analytics.next_30_days
         (Analytics.generateForecasting now (filter (Analytics.closes_by now 90) intents)).
Proof.
  unfold Analytics.generateForecasting, Analytics.forecast.
  cbn [Analytics.next_30_days Analytics.next_60_days].
  rewrite !filter_nested by lia. repeat split.
Qed.

(* ================================================================== *)
(** * Rule engine: shape of the generated lists *)




(** The threshold of "closing soon" on the sample deal of 75000: a
    close date exactly 29 days away fires, one a millisecond later
    does not. *)
Example closing_soon_threshold :
  let deal_closing at_ms :=
    Sample.intent proposal 75000 0.5 (Some (Sample.now + at_ms)) in
  map ins_title (RuleEngine.generateAIInsights Sample.toLocaleString Sample.uuid Sample.now
                   (deal_closing (29 * MS_PER_DAY)))
  = ["High-Value Deal Closing Soon"]
  /\ map ins_title (RuleEngine.generateAIInsights Sample.toLocaleString Sample.uuid Sample.now
                      (deal_closing (29 * MS_PER_DAY + 1)))
     = [].
Proof. split; reflexivity. Qed.

(** X22: shape of the action list.  For every intent the list returned
    by generateNextBestActions holds at most two actions and at most
    one of type meeting; it is the pushed actions reordered, none lost
    or added by the sort; "Send Proposal" is due three days from now
    and no other action has a due date. *)
Theorem action_list_shape uuid now i :
  let actions := RuleEngine.generateNextBestActions uuid now i in
  (List.length actions <= 2)%nat
  /\ (List.length (filter is_meeting_type actions) <= 1)%nat
  /\ Permutation actions
       (RuleEngine.value_actions uuid i (RuleEngine.stage_actions uuid now i))
  /\ Forall (fun a => act_due_date a = expected_due_date now a) actions.
Proof.
  cbv zeta.
  split; [|split; [|split; [apply sort_perm|]]];
    action_branches uuid now i;
    cbn -[PrimFloat.ltb PrimFloat.eqb PrimFloat.sub Z.add Z.mul];
    try lia; repeat constructor.
Qed.

(** X23: the generated actions pass their schema.  Provided the
    identifier source yields UUIDs, every action generated for any
    intent satisfies the bounds of NextBestActionSchema: title of 1 to
    255 characters, description of at most 1000, reasoning of 1 to 500,
    priority within 1..10 and confidence within 0..1; so
    NextBestActionSchema.parse never throws in the rule engine. *)
Theorem generated_actions_pass_schema is_uuid uuid now i :
  (forall k, is_uuid (uuid k) = true) ->
  forallb (NextBestActionSchema_ok is_uuid)
          (RuleEngine.generateNextBestActions uuid now i) = true.
Proof.
  intros Huuid.
  action_branches uuid now i; vm_compute; rewrite ?Huuid; reflexivity.
Qed.

Lemma generated_actions_pass_schema_witness :
  forallb (NextBestActionSchema_ok (fun s => (String.length s =? 36)%nat))
          (RuleEngine.generateNextBestActions Sample.uuid Sample.now Sample.discovery_150k)
  = true.
Proof.
  apply (generated_actions_pass_schema (fun s => (String.length s =? 36)%nat)
           Sample.uuid Sample.now Sample.discovery_150k).
  intros k. reflexivity.
Defined.

(* ================================================================== *)
(** * Stage progress of the intent view *)

(** X24: what the "Stage Progress" card marks.  It always shows the
    five stages discovery .. closed-won.  For an intent in one of the
    four open stages the earlier stages are marked passed and its own
    stage current.  For a closed-won intent the closed-won row is
    current but no stage is marked passed, and for a closed-lost intent
    no row is marked at all: indexOf over the four open stages is -1
    for both.  No row is ever both passed and current. *)
Theorem stage_progress_marks current :
  let rows := IntentDetail.stage_progress current in
  map IntentDetail.row_stage rows
  = [discovery; qualification; proposal; negotiation; closed_won]
  /\ map IntentDetail.isPassed rows
     = map (fun index =>
              index <? match current with
                       | discovery => 0 | qualification => 1 | proposal => 2
                       | negotiation => 3 | closed_won | closed_lost => -1
                       end)
           [0; 1; 2; 3; 4]
  /\ map IntentDetail.isCurrent rows
     = map (IntentStage_eqb current)
           [discovery; qualification; proposal; negotiation; closed_won]
  /\ existsb IntentDetail.isPassed
       (IntentDetail.stage_progress closed_won ++ IntentDetail.stage_progress closed_lost)
     = false
  /\ existsb (fun r => IntentDetail.isPassed r && IntentDetail.isCurrent r) rows = false.
Proof. destruct current; repeat split. Qed.
